(** * BorgLogger: a shared logger with context adapters

    A shallow embedding of [lib/BorgLogger.py] and of the constants of
    [config.py] it reads, followed by the properties of the logging facility.

    Python objects are modelled by the values the code can tell apart:
    the shared state is a finite map from field names to values, loggers and
    handlers live in a store and are referred to by their index, exceptions
    are explicit outcomes of a small state-and-error monad.  The parts of the
    standard library the code calls ([logging], [pathlib], [traceback]) are
    modelled next to their callers; paths follow the POSIX flavour of
    [pathlib]. *)

From stdpp Require Import gmap strings list.
From Stdlib Require Import ZArith Ascii String DecimalString DecimalPos.

Open Scope string_scope.

(** ** Strings, the way Python slices and splits them *)

Module PyStr.

(** [s[:-2]] *)
Definition drop_last2 (s : string) : string :=
  String.substring 0 (String.length s - 2) s.

(** The first occurrence of [sep] cuts [s] in two. *)
Fixpoint cut (sep : ascii) (s : string) : option (string * string) :=
  match s with
  | EmptyString => None
  | String c r =>
      if Ascii.eqb c sep then Some (EmptyString, r)
      else match cut sep r with
           | Some (a, b) => Some (String c a, b)
           | None => None
           end
  end.

(** [s.split(sep, maxsplit=n)] for a separator of one character. *)
Fixpoint split_max (sep : ascii) (n : nat) (s : string) : list string :=
  match n with
  | O => [s]
  | S n' =>
      match cut sep s with
      | Some (a, b) => a :: split_max sep n' b
      | None => [s]
      end
  end.

(** [s.split(sep)]: every occurrence cuts. *)
Definition split (sep : ascii) (s : string) : list string :=
  split_max sep (String.length s) s.

(** [needle in hay] *)
Fixpoint contains (needle hay : string) : bool :=
  String.prefix needle hay ||
  match hay with
  | EmptyString => false
  | String _ r => contains needle r
  end.

(** [sep.join(l)] *)
Fixpoint join (sep : string) (l : list string) : string :=
  match l with
  | [] => ""
  | [x] => x
  | x :: r => x +:+ sep +:+ join sep r
  end.

(** [str(n)] for an integer. *)
Definition of_Z (z : Z) : string := NilZero.string_of_int (Z.to_int z).

End PyStr.

(** ** Values and outcomes *)

(** The Python values the logger's shared state and arguments can hold, as far
    as the code distinguishes them.  [VOther] stands for any other object and
    carries its truth value. *)
Inductive pyval : Type :=
| VNone
| VBool (b : bool)
| VInt (z : Z)
| VStr (s : string)
| VPath (parts : list string)
| VLogger (id : nat)
| VOther (truth : bool).

(** [bool(v)], which is what [not v] tests. *)
Definition truthy (v : pyval) : bool :=
  match v with
  | VNone => false
  | VBool b => b
  | VInt z => negb (z =? 0)%Z
  | VStr s => negb (String.eqb s "")
  | VPath _ => true
  | VLogger _ => true
  | VOther b => b
  end.

Inductive exn : Type :=
| ValueError | TypeError | OSError | KeyError | IndexError | AttributeError.

Inductive outcome (A : Type) : Type :=
| Ok (a : A)
| Raise (e : exn).
Arguments Ok {A} a.
Arguments Raise {A} e.

(** ** pathlib, POSIX flavour *)

Module Path.

(** A path is the tuple [Path.parts]: the anchor first when the path is
    absolute, then the names. *)
Abbreviation t := (list string).

Definition nonempty_name (s : string) : bool :=
  negb (String.eqb s "" || String.eqb s ".").

Definition anchor (s : string) : list string :=
  if String.prefix "///" s then ["/"]
  else if String.prefix "//" s then ["//"]
  else if String.prefix "/" s then ["/"]
  else [].

(** [Path(s).parts] *)
Definition of_str (s : string) : t :=
  (anchor s ++ List.filter nonempty_name (PyStr.split "/"%char s))%list.

Definition is_absolute (p : t) : bool :=
  match p with
  | a :: _ => String.prefix "/" a
  | [] => false
  end.

(** [str(p)] *)
Definition to_str (p : t) : string :=
  match p with
  | [] => "."
  | a :: names =>
      if String.prefix "/" a then a +:+ PyStr.join "/" names
      else PyStr.join "/" p
  end.

(** [p / q] on two paths. *)
Definition join (p q : t) : t :=
  if is_absolute q then q else (p ++ q)%list.

Fixpoint is_prefix (r p : t) : bool :=
  match r, p with
  | [], _ => true
  | a :: r', b :: p' => String.eqb a b && is_prefix r' p'
  | _ :: _, [] => false
  end.

(** [p.relative_to(r)]: the names of [p] below [r]; [ValueError] when [p]
    is not in the subpath of [r]. *)
Definition relative_to (p r : t) : outcome t :=
  if is_prefix r p then Ok (drop (List.length r) p) else Raise ValueError.

(** [p.parts[-k]] for [k >= 1]; [IndexError] out of range. *)
Definition part_from_end (p : t) (k : nat) : outcome string :=
  match rev p !! (k - 1)%nat with
  | Some s => Ok s
  | None => Raise IndexError
  end.

End Path.

(** [a / b] as [_config_logger] evaluates it: defined when at least one side
    is a path and the other a path or a string. *)
Definition truediv (a b : pyval) : outcome pyval :=
  match a, b with
  | VPath p, VPath q => Ok (VPath (Path.join p q))
  | VPath p, VStr s => Ok (VPath (Path.join p (Path.of_str s)))
  | VStr s, VPath q => Ok (VPath (Path.join (Path.of_str s) q))
  | _, _ => Raise TypeError
  end.

(** ** logging levels *)

Module Level.
Definition CRITICAL : Z := 50.
Definition ERROR : Z := 40.
Definition WARNING : Z := 30.
Definition INFO : Z := 20.
Definition DEBUG : Z := 10.
Definition NOTSET : Z := 0.

(** [logging._nameToLevel] *)
Definition _nameToLevel (s : string) : option Z :=
  if String.eqb s "CRITICAL" then Some CRITICAL
  else if String.eqb s "FATAL" then Some CRITICAL
  else if String.eqb s "ERROR" then Some ERROR
  else if String.eqb s "WARN" then Some WARNING
  else if String.eqb s "WARNING" then Some WARNING
  else if String.eqb s "INFO" then Some INFO
  else if String.eqb s "DEBUG" then Some DEBUG
  else if String.eqb s "NOTSET" then Some NOTSET
  else None.

(** [logging._checkLevel]: an integer (booleans are integers) is returned
    as it is, a string must name a level, anything else is a type error. *)
Definition _checkLevel (v : pyval) : outcome Z :=
  match v with
  | VInt z => Ok z
  | VBool b => Ok (if b then 1 else 0)%Z
  | VStr s =>
      match _nameToLevel s with
      | Some z => Ok z
      | None => Raise ValueError
      end
  | _ => Raise TypeError
  end.

(** The level values a configuration may carry. *)
Definition valid (v : pyval) : bool :=
  match v with
  | VInt _ | VBool _ => true
  | VStr s => bool_decide (is_Some (_nameToLevel s))
  | _ => false
  end.
End Level.

(** ** Exceptions as [sys.exc_info()] shows them *)

(** An exception class: what [str(cls)] and [cls.__doc__] read. *)
Record exc_class := {
  cls_module : string;
  cls_qualname : string;
  cls_doc : option string
}.

(** [str(cls)] *)
Definition class_str (c : exc_class) : string :=
  if String.eqb (cls_module c) "builtins"
  then "<class '" +:+ cls_qualname c +:+ "'>"
  else "<class '" +:+ cls_module c +:+ "." +:+ cls_qualname c +:+ "'>".

(** One traceback object: the file of its frame's code and [tb_lineno]. *)
Record tb_entry := {
  tb_filename : string;
  tb_lineno : Z
}.

(** [(type, value, traceback)].  The traceback is the chain that starts at
    [exc_info[2]], the entry of the frame that handles the exception, and
    follows [tb_next] down to the frame that raised it. *)
Record exc_info := {
  exc_type : exc_class;
  exc_text : string;
  exc_tb : tb_entry;
  exc_tb_next : list tb_entry
}.

(** The entry of the frame in which the exception was raised. *)
Definition innermost (e : exc_info) : tb_entry :=
  List.last (exc_tb_next e) (exc_tb e).

(** [str(x)] of an optional docstring. *)
Definition doc_str (d : option string) : string :=
  match d with
  | Some s => s
  | None => "None"
  end.

#[global] Instance outcome_ret : MRet outcome := fun A a => Ok a.
#[global] Instance outcome_bind : MBind outcome := fun A B f m =>
  match m with
  | Ok a => f a
  | Raise e => Raise e
  end.

Definition exn_eqb (a b : exn) : bool :=
  match a, b with
  | ValueError, ValueError | TypeError, TypeError | OSError, OSError
  | KeyError, KeyError | IndexError, IndexError
  | AttributeError, AttributeError => true
  | _, _ => false
  end.

(** [with contextlib.suppress(e): x = body]: when [body] raises [e] the
    block is left and [x] keeps the value it had. *)
Definition suppress {A : Type} (e : exn) (body : outcome A) (kept : A)
  : outcome A :=
  match body with
  | Ok a => Ok a
  | Raise e' => if exn_eqb e e' then Ok kept else Raise e'
  end.

(** [l[i]] on a Python list. *)
Definition py_index {A : Type} (l : list A) (i : nat) : outcome A :=
  match l !! i with
  | Some a => Ok a
  | None => Raise IndexError
  end.

(** ** The exception formatter *)

Section Formatter.

(** [config.ROOT_DIR], the resolved folder of [config.py], as path parts. *)
Variable ROOT_DIR : list string.

(** [_customFormatException]: line, short error name, text, docstring. *)
Definition _customFormatException (e : exc_info)
  : outcome (Z * string * string * option string) :=
  error ← py_index (PyStr.split_max "'"%char 2 (class_str (exc_type e))) 1;
  mret (tb_lineno (exc_tb e), error, exc_text e, cls_doc (exc_type e)).

(** The first three lines of [detailed_exception]: the file of the frame of
    [exc_info[2]], shortened to [folder/file] when it lies under
    [ROOT_DIR]. *)
Definition err_file_of (e : exc_info) : outcome string :=
  let err_file := Path.of_str (tb_filename (exc_tb e)) in
  suppress ValueError
    (_ ← Path.relative_to err_file ROOT_DIR;
     folder ← Path.part_from_end err_file 2;
     file ← Path.part_from_end err_file 1;
     mret (folder +:+ "/" +:+ file))
    (Path.to_str err_file).

Definition detailed_exception (e : exc_info) : outcome string :=
  err_file ← err_file_of e;
  '(line, error, error_text, description) ← _customFormatException e;
  mret ("Exception in " +:+ err_file +:+ ":" +:+ PyStr.of_Z line +:+ " - "
        +:+ error +:+ " - " +:+ error_text +:+ " - " +:+ doc_str description).

(** [detailed_exception(sys.exc_info())]: without an active exception
    [sys.exc_info()] is [(None, None, None)] and [exc_info[2].tb_frame]
    fails. *)
Definition detailed_exception_now (active : option exc_info) : outcome string :=
  match active with
  | Some e => detailed_exception e
  | None => Raise AttributeError
  end.

End Formatter.

(** ** ContextAdapter.process *)

(** The context payload of an adapter ([self.extra]). *)
Inductive context : Type :=
| CtxNone
| CtxStr (s : string)
| CtxDict (items : list (string * pyval))
| CtxList (items : list pyval)
| CtxOther.

(** Keyword arguments of a logging call, as far as the code reads them. *)
Record kwargs := {
  kw_extra : option (gmap string pyval);
  kw_exc_info : bool
}.

(** [str(g)] of a generator object created in [process]; [ptr] is the text
    of its address. *)
Definition genexpr_str (ptr : string) : string :=
  "<generator object ContextAdapter.process.<locals>.<genexpr> at "
  +:+ ptr +:+ ">".

(** [ContextAdapter.process].  In the mapping branch the argument of [str]
    is a generator expression: it is never iterated, [str] prints the
    generator object. *)
Definition process (ptr : string) (extra : context) (msg : string)
    (kw : kwargs) : string * kwargs :=
  match extra with
  | CtxDict _ =>
      let context_text := genexpr_str ptr in
      let context_text := PyStr.drop_last2 context_text in
      ("[" +:+ context_text +:+ "] " +:+ msg, kw)
  | CtxStr s => ("[" +:+ s +:+ "] " +:+ msg, kw)
  | _ => (msg, kw)
  end.

(** The rendering the specification words for a mapping of strings: the
    [key: value] pairs joined by commas, in brackets, before the message. *)
Definition spec_render_mapping (items : list (string * string)) (msg : string)
  : string :=
  "[" +:+ PyStr.join ", " (List.map (fun kv => fst kv +:+ ": " +:+ snd kv) items)
  +:+ "] " +:+ msg.

(** ** The logging store *)

Inductive sink : Type :=
| Console
| File (path : list string).

(** A handler: where it writes, its level, its format strings. *)
Record Handler := {
  h_sink : sink;
  h_level : Z;
  h_fmt : string;
  h_datefmt : string
}.

(** A logger object: name, level, the attached handlers by reference. *)
Record Logger := {
  l_name : pyval;
  l_level : Z;
  l_handlers : list nat
}.

(** One emitted line: the sink it went to, its level and its message. *)
Record line := {
  ln_sink : sink;
  ln_level : Z;
  ln_msg : string
}.

(** The process state the logger reads and writes: the class attribute
    [_shared_state], the logger and handler objects created so far, the files
    opened for appending, the paths the file system refuses to open, and the
    lines written. *)
Record world := {
  shared : gmap string pyval;
  loggers : list Logger;
  handlers : list Handler;
  opened : list (list string);
  denied : list (list string);
  output : list line
}.

Definition with_shared (f : gmap string pyval → gmap string pyval) (w : world)
  : world :=
  {| shared := f (shared w); loggers := loggers w; handlers := handlers w;
     opened := opened w; denied := denied w; output := output w |}.

Definition with_loggers (f : list Logger → list Logger) (w : world) : world :=
  {| shared := shared w; loggers := f (loggers w); handlers := handlers w;
     opened := opened w; denied := denied w; output := output w |}.

Definition with_handlers (f : list Handler → list Handler) (w : world) : world :=
  {| shared := shared w; loggers := loggers w; handlers := f (handlers w);
     opened := opened w; denied := denied w; output := output w |}.

Definition with_opened (f : list (list string) → list (list string)) (w : world)
  : world :=
  {| shared := shared w; loggers := loggers w; handlers := handlers w;
     opened := f (opened w); denied := denied w; output := output w |}.

Definition with_output (f : list line → list line) (w : world) : world :=
  {| shared := shared w; loggers := loggers w; handlers := handlers w;
     opened := opened w; denied := denied w; output := f (output w) |}.

(** Computations that read and write the store and may raise. *)
Definition M (A : Type) : Type := world → outcome A * world.

#[global] Instance M_ret : MRet M := fun A a w => (Ok a, w).
#[global] Instance M_bind : MBind M := fun A B f m w =>
  match m w with
  | (Ok a, w') => f a w'
  | (Raise e, w') => (Raise e, w')
  end.

Definition lift {A : Type} (o : outcome A) : M A := fun w => (o, w).

Definition modify (f : world → world) : M unit := fun w => (Ok tt, f w).

Fixpoint for_each {A : Type} (l : list A) (body : A → M unit) : M unit :=
  match l with
  | [] => mret tt
  | a :: r => body a;; for_each r body
  end.

(** [cls._shared_state[key]] *)
Definition shared_get (key : string) : M pyval := fun w =>
  match shared w !! key with
  | Some v => (Ok v, w)
  | None => (Raise KeyError, w)
  end.

(** [cls._shared_state[key] = v] *)
Definition shared_set (key : string) (v : pyval) : M unit :=
  modify (with_shared (insert key v)).

(** *** The handlers and loggers of [logging] *)

(** [logging.StreamHandler()]: a console handler at level NOTSET. *)
Definition StreamHandler : M nat := fun w =>
  (Ok (List.length (handlers w)),
   with_handlers (fun hs => hs ++ [{| h_sink := Console; h_level := Level.NOTSET;
                                      h_fmt := ""; h_datefmt := "" |}])%list w).

(** [logging.FileHandler(filename, encoding="utf-8")]: the file is opened for
    appending at once; the handler starts at level NOTSET. *)
Definition FileHandler (filename : pyval) : M nat := fun w =>
  match filename with
  | VPath p =>
      if bool_decide (p ∈ denied w) then (Raise OSError, w)
      else
        (Ok (List.length (handlers w)),
         with_opened (fun o => o ++ [p])%list
           (with_handlers
              (fun hs => hs ++ [{| h_sink := File p; h_level := Level.NOTSET;
                                   h_fmt := ""; h_datefmt := "" |}])%list w))
  | VStr s =>
      let p := Path.of_str s in
      if bool_decide (p ∈ denied w) then (Raise OSError, w)
      else
        (Ok (List.length (handlers w)),
         with_opened (fun o => o ++ [p])%list
           (with_handlers
              (fun hs => hs ++ [{| h_sink := File p; h_level := Level.NOTSET;
                                   h_fmt := ""; h_datefmt := "" |}])%list w))
  | _ => (Raise TypeError, w)
  end.

(** [h.setFormatter(logging.Formatter(fmt, datefmt=datefmt))] *)
Definition setFormatter (h : nat) (fmt datefmt : string) : M unit :=
  modify (with_handlers (alter (fun x =>
    {| h_sink := h_sink x; h_level := h_level x;
       h_fmt := fmt; h_datefmt := datefmt |}) h)).

(** [h.setLevel(level)] on a handler. *)
Definition Handler_setLevel (h : nat) (level : pyval) : M unit :=
  lv ← lift (Level._checkLevel level);
  modify (with_handlers (alter (fun x =>
    {| h_sink := h_sink x; h_level := lv;
       h_fmt := h_fmt x; h_datefmt := h_datefmt x |}) h)).

(** [CustomLogger(name)]: a new logger object that is not registered with
    the logging manager; it has no parent, no handlers, level NOTSET. *)
Definition CustomLogger (name : pyval) : M nat := fun w =>
  (Ok (List.length (loggers w)),
   with_loggers (fun ls => ls ++ [{| l_name := name; l_level := Level.NOTSET;
                                     l_handlers := [] |}])%list w).

(** [logger.addHandler(h)]: appended unless already attached. *)
Definition addHandler (lg h : nat) : M unit :=
  modify (with_loggers (alter (fun x =>
    {| l_name := l_name x; l_level := l_level x;
       l_handlers := if bool_decide (h ∈ l_handlers x) then l_handlers x
                     else (l_handlers x ++ [h])%list |}) lg)).

(** [logger.setLevel(level)] *)
Definition Logger_setLevel (lg : nat) (level : pyval) : M unit :=
  lv ← lift (Level._checkLevel level);
  modify (with_loggers (alter (fun x =>
    {| l_name := l_name x; l_level := lv; l_handlers := l_handlers x |}) lg)).

(** ** BorgLogger *)

Definition file_format : string :=
  "%(asctime)s %(name)-12s %(levelname)-8s [%(filename)s:%(lineno)d] %(message)s".
Definition file_datefmt : string := "[%Y-%m-%d %H:%M:%S]".
Definition console_format : string :=
  "%(asctime)s %(levelname)-8s [%(filename)s:%(lineno)d] %(message)s".
Definition console_datefmt : string := "[%H:%M:%S]".

(** [BorgLogger._config_logger] *)
Definition _config_logger : M unit :=
  root_level ← shared_get "root_level";
  _ ← lift (Level._checkLevel root_level);
  dir ← shared_get "log_file_path";
  fname ← shared_get "log_file_name";
  log_file_path ← lift (truediv dir fname);
  file_handler ← FileHandler log_file_path;
  setFormatter file_handler file_format file_datefmt;;
  Handler_setLevel file_handler root_level;;
  console_handler ← StreamHandler;
  setFormatter console_handler console_format console_datefmt;;
  Handler_setLevel console_handler root_level;;
  name ← shared_get "name";
  main_logger ← CustomLogger name;
  addHandler main_logger console_handler;;
  addHandler main_logger file_handler;;
  Logger_setLevel main_logger root_level;;
  shared_set "main_logger" (VLogger main_logger).

(** The [config] argument of [BorgLogger(config)]. *)
Inductive config_arg : Type :=
| CfgNone
| CfgDict (items : list (pyval * pyval))
| CfgOther.

(** [key in cls._shared_state]: the fields are named by strings. *)
Definition key_in_shared (key : pyval) (st : gmap string pyval) : option string :=
  match key with
  | VStr k => if bool_decide (is_Some (st !! k)) then Some k else None
  | _ => None
  end.

(** The loop of [__new__] over [config.items()]. *)
Definition merge_config (items : list (pyval * pyval)) : M unit :=
  for_each items (fun kv => fun w =>
    match key_in_shared (fst kv) (shared w) with
    | Some k => shared_set k (snd kv) w
    | None => (Ok tt, w)
    end).

(** [if not cls._shared_state["main_logger"]: cls._config_logger()] *)
Definition ensure_logger : M unit :=
  main_logger ← shared_get "main_logger";
  if truthy main_logger then mret tt else _config_logger.

(** [BorgLogger.__new__] *)
Definition __new__ (config : config_arg) : M unit :=
  match config with
  | CfgDict items => merge_config items
  | _ => mret tt
  end;;
  ensure_logger.

(** [BorgLogger.get_logger] *)
Definition get_logger : M pyval :=
  ensure_logger;;
  shared_get "main_logger".

(** An adapter: the logger it was bound to and its context payload. *)
Record ContextAdapter := {
  ad_logger : pyval;
  ad_extra : context
}.

(** [BorgLogger.get_adapter] *)
Definition get_adapter (context_info : context) : M ContextAdapter :=
  ensure_logger;;
  main_logger ← shared_get "main_logger";
  mret {| ad_logger := main_logger; ad_extra := context_info |}.

(** ** config.py *)

Module Config.

Definition LOGGERNAME : string := "LeanPython".
Definition LOG_FOLDER : string := "logs".

(** [logging.DEBUG if "-d" in sys.argv else logging.INFO] *)
Definition LOG_LEVEL (argv : list string) : Z :=
  if bool_decide ("-d" ∈ argv) then Level.DEBUG else Level.INFO.

(** [LOGGERNAME] with the date suffix [now] when [--date] is given. *)
Definition LOG_FILE (argv : list string) (now : string) : string :=
  LOGGERNAME +:+
  (if (1 <? List.length argv)%nat && bool_decide ("--date" ∈ argv)
   then now else "").

(** [ROOT_DIR / LOG_FOLDER] *)
Definition LOG_PATH (ROOT_DIR : list string) : list string :=
  Path.join ROOT_DIR (Path.of_str LOG_FOLDER).

End Config.

(** The class attribute [BorgLogger._shared_state] as the module body
    leaves it. *)
Definition _shared_state (argv : list string) (ROOT_DIR : list string)
    (now : string) : gmap string pyval :=
  <["name" := VStr Config.LOGGERNAME]>
  (<["main_logger" := VNone]>
  (<["root_level" := VInt (Config.LOG_LEVEL argv)]>
  (<["log_file_path" := VPath (Config.LOG_PATH ROOT_DIR)]>
  (<["log_file_name" :=
       VPath (Path.of_str (Config.LOG_FILE argv now +:+ ".log"))]> ∅)))).

(** The process right after the import of [BorgLogger]: nothing created,
    nothing written; [no] lists the paths that cannot be opened. *)
Definition initial_world (argv : list string) (ROOT_DIR : list string)
    (now : string) (no : list (list string)) : world :=
  {| shared := _shared_state argv ROOT_DIR now; loggers := []; handlers := [];
     opened := []; denied := no; output := [] |}.

(** ** Logging through the logger and through an adapter *)

Section Logging.

Variable ROOT_DIR : list string.

(** [sys.exc_info()] at the time of the call. *)
Variable active : option exc_info.

(** The logger object a value refers to; a value that is no logger has none
    of the logger's methods. *)
Definition deref (v : pyval) : M Logger := fun w =>
  match v with
  | VLogger id =>
      match loggers w !! id with
      | Some lg => (Ok lg, w)
      | None => (Raise AttributeError, w)
      end
  | _ => (Raise AttributeError, w)
  end.

(** [Logger.isEnabledFor]: the logger has no parent, so its effective level
    is its own, and [logging.disable] is at its default 0. *)
Definition isEnabledFor (lg : Logger) (level : Z) : bool :=
  negb (0 >=? level)%Z && (level >=? l_level lg)%Z.

(** [Logger.callHandlers]: every attached handler whose level lets the
    record through writes one line. *)
Definition callHandlers (lg : Logger) (level : Z) (msg : string) : M unit :=
  for_each (l_handlers lg) (fun h => fun w =>
    match handlers w !! h with
    | Some hd =>
        if (level >=? h_level hd)%Z
        then (Ok tt, with_output (fun o => o ++
                [{| ln_sink := h_sink hd; ln_level := level; ln_msg := msg |}])%list w)
        else (Ok tt, w)
    | None => (Ok tt, w)
    end).

(** [logging.Logger._log]: builds the record and hands it to the handlers.
    [extra] reaches the record only as attributes the handlers' formats do
    not print, so it is no argument here; the [KeyError] of [makeRecord] for
    an [extra] that names a record attribute is outside this function, and
    the statements on lines written with an [extra] of the caller assume
    [record_accepts]. *)
Definition Logger__log (self : pyval) (level : Z) (msg : string) : M unit :=
  lg ← deref self;
  callHandlers lg level msg.

(** [isinstance(extra, dict) and "is_exception" in extra] *)
Definition is_exception_flagged (extra : option (gmap string pyval)) : bool :=
  match extra with
  | Some d => bool_decide (is_Some (d !! "is_exception"))
  | None => false
  end.

(** The message [CustomLogger._log] passes on to [Logger._log]. *)
Definition _log_message (msg : string) (extra : option (gmap string pyval))
  : outcome string :=
  if is_exception_flagged extra
  then d ← detailed_exception_now ROOT_DIR active;
       mret (msg +:+ " [" +:+ d +:+ "]")
  else mret msg.

(** [CustomLogger._log] *)
Definition CustomLogger__log (self : pyval) (level : Z) (msg : string)
    (extra : option (gmap string pyval)) : M unit :=
  msg ← lift (_log_message msg extra);
  Logger__log self level msg.

(** [Logger.log(level, msg, **kwargs)], which [debug], [info], [warning] and
    [error] are at their levels. *)
Definition Logger_log (self : pyval) (level : Z) (msg : string) (kw : kwargs)
  : M unit :=
  lg ← deref self;
  if isEnabledFor lg level
  then CustomLogger__log self level msg (kw_extra kw)
  else mret tt.

(** [kwargs["extra"]["is_exception"] = True], with [extra] created when
    missing. *)
Definition flag_exception (exc_info : bool) (kw : kwargs) : kwargs :=
  {| kw_extra := Some (<["is_exception" := VBool true]> (default ∅ (kw_extra kw)));
     kw_exc_info := exc_info |}.

(** [CustomLogger.exception] *)
Definition CustomLogger_exception (self : pyval) (msg : string)
    (exc_info : bool) (kw : kwargs) : M unit :=
  Logger_log self Level.ERROR msg (flag_exception exc_info kw).

(** [LoggerAdapter.log]; [ptr] is the address text of the generator object
    [process] creates for a mapping context. *)
Definition LoggerAdapter_log (ptr : string) (a : ContextAdapter) (level : Z)
    (msg : string) (kw : kwargs) : M unit :=
  lg ← deref (ad_logger a);
  if isEnabledFor lg level
  then let '(msg, kw) := process ptr (ad_extra a) msg kw in
       Logger_log (ad_logger a) level msg kw
  else mret tt.

(** [ContextAdapter.exception] *)
Definition ContextAdapter_exception (ptr : string) (a : ContextAdapter)
    (msg : string) (exc_info : bool) (kw : kwargs) : M unit :=
  LoggerAdapter_log ptr a Level.ERROR msg (flag_exception exc_info kw).

End Logging.

Definition no_kwargs : kwargs := {| kw_extra := None; kw_exc_info := false |}.


(** ** Acquisition calls, one after another *)

Inductive acquisition : Type :=
| GetLogger
| GetAdapter (context_info : context).

Inductive acquired : Type :=
| ALogger (v : pyval)
| AAdapter (a : ContextAdapter).

Definition acquire (c : acquisition) : M acquired :=
  match c with
  | GetLogger => v ← get_logger; mret (ALogger v)
  | GetAdapter ctx => a ← get_adapter ctx; mret (AAdapter a)
  end.

(** The logger an acquisition handed out. *)
Definition underlying (r : acquired) : pyval :=
  match r with
  | ALogger v => v
  | AAdapter a => ad_logger a
  end.

Fixpoint acquire_all (calls : list acquisition) : M (list acquired) :=
  match calls with
  | [] => mret []
  | c :: rest => r ← acquire c; rs ← acquire_all rest; mret (r :: rs)
  end.

(** ** The merge of [__new__] as a function on the shared state *)

Definition merge_item (st : gmap string pyval) (kv : pyval * pyval)
  : gmap string pyval :=
  match key_in_shared (fst kv) st with
  | Some k => <[k := snd kv]> st
  | None => st
  end.

Definition merged (st : gmap string pyval) (items : list (pyval * pyval))
  : gmap string pyval :=
  foldl merge_item st items.

(** The value [items] binds to the string key [k], the last binding first. *)
Fixpoint lookup_items (items : list (pyval * pyval)) (k : string)
  : option pyval :=
  match items with
  | [] => None
  | (VStr k', v) :: rest =>
      match lookup_items rest k with
      | Some v' => Some v'
      | None => if String.eqb k k' then Some v else None
      end
  | _ :: rest => lookup_items rest k
  end.

(** An item whose key names a field of the shared state. *)
Definition recognized (st : gmap string pyval) (kv : pyval * pyval) : bool :=
  match key_in_shared (fst kv) st with
  | Some _ => true
  | None => false
  end.

(** ** Properties of a store *)

(** The shared state allows a construction: the level [lv] is valid, the two
    path fields join to [p], which can be opened, and the name is [nm]. *)
Definition can_construct (w : world) (lv : Z) (p : list string) (nm : pyval)
  : Prop :=
  ∃ rl d f,
    shared w !! "root_level" = Some rl ∧ Level._checkLevel rl = Ok lv ∧
    shared w !! "log_file_path" = Some d ∧
    shared w !! "log_file_name" = Some f ∧
    truediv d f = Ok (VPath p) ∧ (p ∉ denied w) ∧
    shared w !! "name" = Some nm.

(** The logger reference of the shared state is absent (any false value). *)
Definition logger_absent (w : world) : Prop :=
  ∃ v, shared w !! "main_logger" = Some v ∧ truthy v = false.

(** The logger reference of the shared state is set. *)
Definition logger_present (w : world) : Prop :=
  ∃ v, shared w !! "main_logger" = Some v ∧ truthy v = true.

(** [v] is a logger of the store [w] named [nm] at level [lv] with exactly
    one console handler and one file handler on [p] attached, both at
    [lv]. *)
Definition one_pair (w : world) (v : pyval) (lv : Z) (p : list string)
    (nm : pyval) : Prop :=
  ∃ id hc hf,
    v = VLogger id ∧
    loggers w !! id =
      Some {| l_name := nm; l_level := lv; l_handlers := [hc; hf] |} ∧
    hc ≠ hf ∧
    handlers w !! hc =
      Some {| h_sink := Console; h_level := lv;
              h_fmt := console_format; h_datefmt := console_datefmt |} ∧
    handlers w !! hf =
      Some {| h_sink := File p; h_level := lv;
              h_fmt := file_format; h_datefmt := file_datefmt |}.

(** The store [w'] extends [w]: every logger and handler object of [w] is in
    [w'] as it was. *)
Definition extends (w w' : world) : Prop :=
  (∃ ls, loggers w' = (loggers w ++ ls)%list) ∧
  (∃ hs, handlers w' = (handlers w ++ hs)%list).

(** The store a successful [_config_logger] leaves: a file handler and a
    console handler, both at level [lv], a logger named [nm] at level [lv]
    with the console handler and the file handler attached in this order,
    the file [p] opened, and the logger stored in the shared state. *)
Definition constructed (w : world) (lv : Z) (p : list string) (nm : pyval)
  : world :=
  {| shared := <["main_logger" := VLogger (List.length (loggers w))]> (shared w);
     loggers := (loggers w ++
       [{| l_name := nm; l_level := lv;
           l_handlers := [S (List.length (handlers w));
                          List.length (handlers w)] |}])%list;
     handlers := (handlers w ++
       [{| h_sink := File p; h_level := lv;
           h_fmt := file_format; h_datefmt := file_datefmt |};
        {| h_sink := Console; h_level := lv;
           h_fmt := console_format; h_datefmt := console_datefmt |}])%list;
     opened := (opened w ++ [p])%list;
     denied := denied w;
     output := output w |}.

(** The two lines a message leaves when both handlers of a logger on the
    file [p] let it through. *)
Definition both_lines (p : list string) (level : Z) (msg : string) : list line :=
  [{| ln_sink := Console; ln_level := level; ln_msg := msg |};
   {| ln_sink := File p; ln_level := level; ln_msg := msg |}].

(** ** Acquisition calls of several threads *)

(** Where a thread stands in [get_logger] or [get_adapter]: before the test
    of the logger reference, before the construction, before the read of the
    reference it returns, or done.  Other threads may run between these
    points; the construction is taken as one step. *)
Inductive pc : Type :=
| PCheck
| PConfig
| PReturn
| PDone (r : outcome acquired).

Record thread := {
  th_call : acquisition;
  th_pc : pc
}.

Definition finish (c : acquisition) (v : pyval) : acquired :=
  match c with
  | GetLogger => ALogger v
  | GetAdapter ctx => AAdapter {| ad_logger := v; ad_extra := ctx |}
  end.

Definition thread_step (t : thread) (w : world) : thread * world :=
  let at_pc p := {| th_call := th_call t; th_pc := p |} in
  match th_pc t with
  | PCheck =>
      match shared_get "main_logger" w with
      | (Ok v, w') => (at_pc (if truthy v then PReturn else PConfig), w')
      | (Raise e, w') => (at_pc (PDone (Raise e)), w')
      end
  | PConfig =>
      match _config_logger w with
      | (Ok _, w') => (at_pc PReturn, w')
      | (Raise e, w') => (at_pc (PDone (Raise e)), w')
      end
  | PReturn =>
      match shared_get "main_logger" w with
      | (Ok v, w') => (at_pc (PDone (Ok (finish (th_call t) v))), w')
      | (Raise e, w') => (at_pc (PDone (Raise e)), w')
      end
  | PDone r => (t, w)
  end.

(** The scheduler lets thread [i] take its next step. *)
Definition sched_step (st : list thread * world) (i : nat)
  : list thread * world :=
  match fst st !! i with
  | Some t =>
      let '(t', w') := thread_step t (snd st) in (<[i := t']> (fst st), w')
  | None => st
  end.

Definition run_schedule (sched : list nat) (st : list thread * world)
  : list thread * world :=
  foldl sched_step st sched.

(** [K] threads, each at the start of its acquisition call. *)
Definition start (calls : list acquisition) : list thread :=
  List.map (fun c => {| th_call := c; th_pc := PCheck |}) calls.

(** A thread that has not yet passed its construction step. *)
Definition is_pending (t : thread) : bool :=
  match th_pc t with
  | PCheck | PConfig => true
  | _ => false
  end.

(** The number of such threads. *)
Definition pending (ts : list thread) : nat :=
  List.length (List.filter is_pending ts).

(** A thread that is done holds a logger of a store with [n] loggers. *)
Definition thread_ok (n : nat) (t : thread) : Prop :=
  match th_pc t with
  | PDone r => ∃ id, r = Ok (finish (th_call t) (VLogger id)) ∧ (id < n)%nat
  | _ => True
  end.

(** What every schedule keeps true of [K] threads that started without a
    logger on a configuration that allows the construction. *)
Record race_inv (K : nat) (lv : Z) (p : list string) (nm : pyval)
    (ts : list thread) (w : world) : Prop := {
  inv_threads : List.length ts = K;
  inv_config : can_construct w lv p nm;
  inv_reference :
    (logger_absent w ∧ loggers w = [] ∧
     Forall (fun t => is_pending t = true) ts) ∨
    (∃ id, shared w !! "main_logger" = Some (VLogger id) ∧
           (id < List.length (loggers w))%nat);
  inv_pairs :
    ∀ id, (id < List.length (loggers w))%nat →
          one_pair w (VLogger id) lv p nm;
  inv_handlers :
    List.length (handlers w) = (2 * List.length (loggers w))%nat;
  inv_count : (List.length (loggers w) + pending ts ≤ K)%nat;
  inv_done : Forall (thread_ok (List.length (loggers w))) ts
}.

(** A thread that ran to its end with the result [r]. *)
Definition done (c : acquisition) (r : outcome acquired) : thread :=
  {| th_call := c; th_pc := PDone r |}.

(** The schedule that runs the threads one after another, each to its end. *)
Fixpoint sequential (k n : nat) : list nat :=
  match n with
  | O => []
  | S n' => k :: k :: k :: sequential (S k) n'
  end.

(** ** Names used in the statements about the formatter *)

(** The dotted name Python prints for a class: the qualified name, with the
    module before it unless the class is a builtin. *)
Definition short_name (c : exc_class) : string :=
  if String.eqb (cls_module c) "builtins" then cls_qualname c
  else cls_module c +:+ "." +:+ cls_qualname c.

Fixpoint has_char (c : ascii) (s : string) : bool :=
  match s with
  | EmptyString => false
  | String x r => Ascii.eqb x c || has_char c r
  end.

(** The builtin [ZeroDivisionError]. *)
Definition ZeroDivisionError_class : exc_class :=
  {| cls_module := "builtins"; cls_qualname := "ZeroDivisionError";
     cls_doc :=
       Some "Second argument to a division or modulo operation was zero." |}.

(** The same exception seen from another traceback. *)
Definition with_traceback (e : exc_info) (tb : tb_entry) (next : list tb_entry)
  : exc_info :=
  {| exc_type := exc_type e; exc_text := exc_text e;
     exc_tb := tb; exc_tb_next := next |}.

(** The reading of the specification in which file and line are those of
    the innermost frame, the one that raised. *)
Definition spec_detailed_exception_innermost (ROOT_DIR : list string)
    (e : exc_info) : outcome string :=
  detailed_exception ROOT_DIR (with_traceback e (innermost e) []).

(** The text [detailed_exception] composes from its five parts. *)
Definition exception_text (file : string) (line : Z) (name text : string)
    (doc : option string) : string :=
  "Exception in " +:+ file +:+ ":" +:+ PyStr.of_Z line +:+ " - " +:+ name
  +:+ " - " +:+ text +:+ " - " +:+ doc_str doc.

(** ** Sample inputs *)

Module Sample.

Definition root : list string := ["/"; "proj"].

(** The process started as [python example.py], nothing denied. *)
Definition w0 : world := initial_world ["example.py"] root "" [].

(** The store after the first [get_logger()]. *)
Definition w1 : world := snd (get_logger w0).

(** [1 / 0] on line 105 of [examples/foo.py], caught in the same frame. *)
Definition zde : exc_info :=
  {| exc_type := ZeroDivisionError_class;
     exc_text := "division by zero";
     exc_tb := {| tb_filename := "/proj/examples/foo.py"; tb_lineno := 105 |};
     exc_tb_next := [] |}.

(** [1 / 0] on line 3 of [lib/foo.py], in a function called from line 10 of
    [examples/bar.py], where the exception is caught. *)
Definition zde_called : exc_info :=
  {| exc_type := ZeroDivisionError_class;
     exc_text := "division by zero";
     exc_tb := {| tb_filename := "/proj/examples/bar.py"; tb_lineno := 10 |};
     exc_tb_next := [{| tb_filename := "/proj/lib/foo.py"; tb_lineno := 3 |}] |}.

Definition ptr : string := "0x7f3a5c1d2e40".

Definition req_context : context := CtxDict [("req", VStr "42")].

(** An override that clears the logger reference and names no level. *)
Definition reset_override : config_arg :=
  CfgDict [(VStr "main_logger", VNone); (VStr "root_level", VStr "LOUD")].

(** An override that clears the logger reference and lowers the level. *)
Definition rebuild_override : config_arg :=
  CfgDict [(VStr "main_logger", VNone); (VStr "root_level", VInt Level.DEBUG)].

Definition debug_override : list (pyval * pyval) :=
  [(VStr "root_level", VStr "DEBUG"); (VStr "colour", VBool true)].

(** The shared state with a level that names nothing. *)
Definition w_bad : world :=
  with_shared (insert "root_level" (VStr "LOUD")) w0.

Definition log_file : list string := ["/"; "proj"; "logs"; "LeanPython.log"].

Definition two_threads : list thread := start [GetLogger; GetLogger].

(** Both threads test the reference before either constructs. *)
Definition racy_schedule : list nat := [0; 1; 0; 0; 1; 1]%nat.

End Sample.

(** ** config.py: command-line parameters *)

Module Argv.

(** A command-line word of ASCII characters only.  [py_int] below is [int]
    on such words; the Unicode digits and blanks that [int] also converts
    have no counterpart in a string of 8-bit characters. *)
Definition is_ascii_char (c : ascii) : bool := (nat_of_ascii c <? 128)%nat.

Fixpoint is_ascii (s : string) : bool :=
  match s with
  | EmptyString => true
  | String c r => is_ascii_char c && is_ascii r
  end.

(** The ASCII whitespace [int] skips around a number: tab, line feed,
    vertical tab, form feed, carriage return and space.  The separators
    0x1C to 0x1F are not among them: [int] rejects a word that holds one. *)
Definition is_space (c : ascii) : bool :=
  let n := nat_of_ascii c in
  ((9 <=? n) && (n <=? 13) || (n =? 32))%nat.

Definition is_digit (c : ascii) : bool :=
  let n := nat_of_ascii c in ((48 <=? n) && (n <=? 57))%nat.

Definition digit_value (c : ascii) : Z := Z.of_nat (nat_of_ascii c - 48).

Fixpoint lstrip (s : string) : string :=
  match s with
  | EmptyString => EmptyString
  | String c r => if is_space c then lstrip r else s
  end.

Fixpoint rstrip (s : string) : string :=
  match s with
  | EmptyString => EmptyString
  | String c r =>
      match rstrip r with
      | EmptyString => if is_space c then EmptyString else String c EmptyString
      | r' => String c r'
      end
  end.

(** [s.strip()] *)
Definition strip (s : string) : string := rstrip (lstrip s).

(** The digits of a decimal literal, left to right: single underscores may
    stand between two digits, [seen] tells that the last character was a
    digit. *)
Fixpoint digits_value (acc : Z) (seen : bool) (s : string) : option Z :=
  match s with
  | EmptyString => if seen then Some acc else None
  | String c r =>
      if is_digit c then digits_value (10 * acc + digit_value c) true r
      else if Ascii.eqb c "_" then
        if seen then digits_value acc false r else None
      else None
  end.

Fixpoint count_digits (s : string) : nat :=
  match s with
  | EmptyString => O
  | String c r => if is_digit c then S (count_digits r) else count_digits r
  end.

(** [sys.get_int_max_str_digits()] at its default. *)
Definition int_max_str_digits : nat := 4300.

(** [int(s)] for a string [s] with [is_ascii s]: surrounding whitespace, an
    optional sign, decimal digits with single underscores between them;
    anything else, or more digits than the interpreter converts, is a
    [ValueError]. *)
Definition py_int (s : string) : outcome Z :=
  let s := strip s in
  let '(negative, body) :=
    match s with
    | String "-" r => (true, r)
    | String "+" r => (false, r)
    | _ => (false, s)
    end in
  match digits_value 0 false body with
  | Some n =>
      if (int_max_str_digits <? count_digits body)%nat then Raise ValueError
      else Ok (if negative then (- n)%Z else n)
  | None => Raise ValueError
  end.

(** [l.index(x)]: the first position of [x]; [ValueError] when absent. *)
Fixpoint list_index (x : string) (l : list string) : outcome nat :=
  match l with
  | [] => Raise ValueError
  | y :: r =>
      if String.eqb y x then Ok O
      else match list_index x r with
           | Ok i => Ok (S i)
           | Raise e => Raise e
           end
  end.

(** [read_next_argument(arg)] with [sys.argv = argv]: only the
    [IndexError] of the [try] block is caught. *)
Definition read_next_argument (argv : list string) (arg : string)
  : outcome (option Z) :=
  if negb (bool_decide (arg ∈ argv)) then Ok None
  else
    match (i ← list_index arg argv;
           v ← py_index argv (i + 1);
           py_int v) with
    | Ok n => Ok (Some n)
    | Raise IndexError => Ok None
    | Raise e => Raise e
    end.

(** [x or 10] for the result of [read_next_argument]. *)
Definition or_default (x : option Z) (d : Z) : Z :=
  match x with
  | Some n => if (n =? 0)%Z then d else n
  | None => d
  end.

(** [SOME_CMD_ARG_WITH_PARAM] *)
Definition SOME_CMD_ARG_WITH_PARAM (argv : list string) : outcome Z :=
  x ← read_next_argument argv "--somenumber";
  mret (or_default x 10).

End Argv.

(** ** config.py: the import path *)

Module SysPath.

(** [ROOT_DIR / "lib"] *)
Definition LIB_DIR (ROOT_DIR : list string) : list string :=
  Path.join ROOT_DIR (Path.of_str "lib").

Definition PROJECT_PATHS (ROOT_DIR : list string) : list (list string) :=
  [LIB_DIR ROOT_DIR; ROOT_DIR].

(** [path in sys.path] for a [Path] object: a path equals only a path with
    the same parts, never a string. *)
Definition path_in (path : list string) (sys_path : list pyval) : bool :=
  existsb (fun v =>
    match v with
    | VPath q => bool_decide (path = q)
    | _ => false
    end) sys_path.

(** [project_to_path()]: the new value of [sys.path]. *)
Definition project_to_path (ROOT_DIR : list string) (sys_path : list pyval)
  : list pyval :=
  foldl (fun sp path =>
           if negb (path_in path sp) then VStr (Path.to_str path) :: sp
           else sp)
        sys_path (PROJECT_PATHS ROOT_DIR).

Definition is_str (v : pyval) : bool :=
  match v with
  | VStr _ => true
  | _ => false
  end.

(** The body of [__initpkg__.py] up to its import of [config]: the root is
    put in front of [sys.path] unless the path object is found there. *)
Definition initpkg_insert (ROOT_DIR : list string) (sys_path : list pyval)
  : list pyval :=
  if negb (path_in ROOT_DIR sys_path) then VStr (Path.to_str ROOT_DIR) :: sys_path
  else sys_path.

End SysPath.

(** ** Preconditions of the statements *)

(** The mappings [__new__] is given as configuration: overrides of the name,
    the level, the folder and the file name of the log, and keys the shared
    state does not have; the logger reference is not among them. *)
Definition configuration_override (items : list (pyval * pyval)) : Prop :=
  lookup_items items "main_logger" = None.

(** The attribute names of a fresh [LogRecord] and the two names
    [Logger.makeRecord] refuses besides; [taskName] is an attribute from
    Python 3.12 on. *)
Definition record_attributes : list string :=
  ["name"; "msg"; "args"; "levelname"; "levelno"; "pathname"; "filename";
   "module"; "exc_info"; "exc_text"; "stack_info"; "lineno"; "funcName";
   "created"; "msecs"; "relativeCreated"; "thread"; "threadName";
   "processName"; "process"; "taskName"; "message"; "asctime"].

(** [extra] holds no key for which [Logger.makeRecord] raises [KeyError].
    [Logger__log] stands for [Logger._log] on such an [extra]: the record is
    built and handed to the handlers. *)
Definition record_accepts (extra : option (gmap string pyval)) : bool :=
  match extra with
  | Some d => forallb (fun k => bool_decide (d !! k = None)) record_attributes
  | None => true
  end.

(** * Properties *)

(** ** Strings *)

#[local] Arguments String.append : simpl nomatch.

Lemma append_assoc (a b c : string) : (a +:+ b) +:+ c = a +:+ (b +:+ c).
Proof. induction a as [|x a IH]; simpl; [reflexivity | f_equal; exact IH]. Qed.

Lemma prefix_refl_app (a b : string) : String.prefix a (a +:+ b) = true.
Proof.
  induction a as [|x a IH]; simpl.
  - now destruct b.
  - destruct (ascii_dec x x) as [_|ne]; [exact IH | now destruct ne].
Qed.

Lemma contains_of_prefix (n h : string) :
  String.prefix n h = true → PyStr.contains n h = true.
Proof. intros H. destruct h; cbn [PyStr.contains]; rewrite H; reflexivity. Qed.

Lemma contains_app_r (n pre h : string) :
  PyStr.contains n h = true → PyStr.contains n (pre +:+ h) = true.
Proof.
  intros H. induction pre as [|x pre IH]; simpl; [exact H |].
  rewrite IH. apply orb_true_r.
Qed.

(** A string contains each of its pieces. *)
Lemma contains_middle (a n b : string) :
  PyStr.contains n (a +:+ n +:+ b) = true.
Proof. apply contains_app_r, contains_of_prefix, prefix_refl_app. Qed.

Lemma contains_in (n s a b : string) :
  s = a +:+ n +:+ b → PyStr.contains n s = true.
Proof. intros ->. apply contains_middle. Qed.

(** ** The context adapter *)

(** The message a mapping context yields: the text of the generator object
    without its last two characters, whatever the mapping holds. *)
Lemma process_mapping (ptr : string) (items : list (string * pyval))
    (msg : string) (kw : kwargs) :
  process ptr (CtxDict items) msg kw =
  ("[" +:+ PyStr.drop_last2 (genexpr_str ptr) +:+ "] " +:+ msg, kw).
Proof. reflexivity. Qed.

Lemma process_mapping_head (ptr : string) (items : list (string * pyval))
    (msg : string) (kw : kwargs) :
  ∃ rest, fst (process ptr (CtxDict items) msg kw) = "[<" +:+ rest.
Proof.
  rewrite process_mapping. unfold PyStr.drop_last2, genexpr_str. simpl.
  eexists. reflexivity.
Qed.

(** C1.  With the context [{"req": "42"}] and the message ["hello"] the
    adapter does not produce ["[req: 42] hello"], the rendering the specification
    describes: at every address of the generator object the message starts
    with the text of that object, the contents of the mapping never reach
    it, and at the sample address the message is the one displayed, which
    does not contain ["[req: 42] hello"]. *)
Theorem C1_mapping_context_prints_generator :
  (∀ ptr kw,
     fst (process ptr Sample.req_context "hello" kw)
     ≠ spec_render_mapping [("req", "42")] "hello") ∧
  (∀ ptr items items' msg kw,
     process ptr (CtxDict items) msg kw = process ptr (CtxDict items') msg kw) ∧
  fst (process Sample.ptr Sample.req_context "hello" no_kwargs) =
    "[<generator object ContextAdapter.process.<locals>.<genexpr> at 0x7f3a5c1d2e4] hello" ∧
  PyStr.contains "[req: 42] hello"
    (fst (process Sample.ptr Sample.req_context "hello" no_kwargs)) = false.
Proof.
  split; [| split; [| split]].
  - intros ptr kw H.
    destruct (process_mapping_head ptr [("req", VStr "42")] "hello" kw)
      as [rest Hrest].
    unfold Sample.req_context in H. rewrite Hrest in H.
    vm_compute in H. discriminate H.
  - reflexivity.
  - vm_compute. reflexivity.
  - vm_compute. reflexivity.
Qed.

(** C2.  A string context is put in brackets before the message; an absent
    context or one that is neither a mapping nor a string leaves the message
    as it is, and the keyword arguments are passed on untouched.  That
    message is the one an enabled leveled call of the adapter hands to the
    logger. *)
Theorem C2_string_and_other_context
    (ptr : string) (extra : context) (msg : string) (kw : kwargs) :
  (∀ s, extra = CtxStr s →
        process ptr extra msg kw = ("[" +:+ s +:+ "] " +:+ msg, kw)) ∧
  ((∀ items, extra ≠ CtxDict items) → (∀ s, extra ≠ CtxStr s) →
   process ptr extra msg kw = (msg, kw)) ∧
  (∀ ROOT_DIR active lg level w v,
     deref v w = (Ok lg, w) → isEnabledFor lg level = true →
     LoggerAdapter_log ROOT_DIR active ptr
       {| ad_logger := v; ad_extra := extra |} level msg kw w =
     Logger_log ROOT_DIR active v level
       (fst (process ptr extra msg kw)) kw w).
Proof.
  split; [| split].
  - intros s ->. reflexivity.
  - intros Hd Hs. destruct extra; try reflexivity.
    + now destruct (Hs s).
    + now destruct (Hd items).
  - intros ROOT_DIR active lg level w v Hv Hen.
    unfold LoggerAdapter_log. cbn [ad_logger ad_extra].
    unfold mbind, M_bind at 1. rewrite Hv, Hen.
    destruct extra; reflexivity.
Qed.

Lemma C2_witness :
  process Sample.ptr (CtxStr "Exception Adapter") "hello" no_kwargs =
    ("[Exception Adapter] hello", no_kwargs) ∧
  process Sample.ptr CtxNone "hello" no_kwargs = ("hello", no_kwargs).
Proof.
  split.
  - exact (proj1 (C2_string_and_other_context Sample.ptr
             (CtxStr "Exception Adapter") "hello" no_kwargs)
             "Exception Adapter" eq_refl).
  - apply (proj1 (proj2 (C2_string_and_other_context Sample.ptr
             CtxNone "hello" no_kwargs))); intros; discriminate.
Defined.

(** ** The exception formatter *)

Lemma cut_at (sep : ascii) (a b : string) :
  has_char sep a = false → PyStr.cut sep (a +:+ String sep b) = Some (a, b).
Proof.
  induction a as [|x a IH]; simpl; intros H.
  - now rewrite Ascii.eqb_refl.
  - apply orb_false_elim in H as [Hx Ha]. rewrite Hx, (IH Ha). reflexivity.
Qed.

Lemma class_str_short_name (c : exc_class) :
  class_str c = "<class " +:+ String "'" (short_name c +:+ String "'" ">").
Proof.
  unfold class_str, short_name.
  destruct (String.eqb (cls_module c) "builtins"); simpl.
  - reflexivity.
  - rewrite !append_assoc. reflexivity.
Qed.

(** The name [_customFormatException] cuts out of [str(cls)] is the dotted
    name of the class. *)
Lemma _customFormatException_ok (e : exc_info) :
  has_char "'" (short_name (exc_type e)) = false →
  _customFormatException e =
  Ok (tb_lineno (exc_tb e), short_name (exc_type e), exc_text e,
      cls_doc (exc_type e)).
Proof.
  intros H. unfold _customFormatException.
  rewrite class_str_short_name.
  cbn [PyStr.split_max].
  rewrite (cut_at "'" "<class " _ eq_refl).
  rewrite (cut_at "'" _ ">" H).
  reflexivity.
Qed.

Lemma two_last (p : list string) :
  (2 ≤ List.length p)%nat → ∃ pre a b, p = (pre ++ [a; b])%list.
Proof.
  intros H. destruct (rev p) as [|b [|a r]] eqn:E.
  - apply (f_equal (@List.length _)) in E. rewrite length_rev in E.
    simpl in E. lia.
  - apply (f_equal (@List.length _)) in E. rewrite length_rev in E.
    simpl in E. lia.
  - exists (rev r), a, b. rewrite <- (rev_involutive p), E. simpl.
    rewrite <- app_assoc. reflexivity.
Qed.

Lemma part_from_end_snoc2 (pre : list string) (a b : string) :
  Path.part_from_end (pre ++ [a; b]) 2 = Ok a ∧
  Path.part_from_end (pre ++ [a; b]) 1 = Ok b.
Proof.
  unfold Path.part_from_end. rewrite rev_app_distr. simpl. split; reflexivity.
Qed.

Lemma is_prefix_length (r p : list string) :
  Path.is_prefix r p = true → (List.length r ≤ List.length p)%nat.
Proof.
  revert p. induction r as [|a r IH]; intros [|b p]; simpl; intros H;
    try lia; try discriminate.
  apply andb_true_iff in H as [_ H]. apply IH in H. lia.
Qed.

(** The file text when the path has a folder and a name. *)
Lemma err_file_of_two (ROOT_DIR : list string) (e : exc_info)
    (pre : list string) (folder file : string) :
  Path.of_str (tb_filename (exc_tb e)) = (pre ++ [folder; file])%list →
  err_file_of ROOT_DIR e =
  Ok (if Path.is_prefix ROOT_DIR (pre ++ [folder; file])
      then folder +:+ "/" +:+ file
      else Path.to_str (pre ++ [folder; file])).
Proof.
  intros Hp. unfold err_file_of, Path.relative_to. rewrite Hp.
  destruct (part_from_end_snoc2 pre folder file) as [H2 H1].
  destruct (Path.is_prefix ROOT_DIR _); cbn.
  - rewrite H2. cbn. rewrite H1. reflexivity.
  - reflexivity.
Qed.

(** The file text when the path is not below the root. *)
Lemma err_file_of_outside (ROOT_DIR : list string) (e : exc_info) :
  Path.is_prefix ROOT_DIR (Path.of_str (tb_filename (exc_tb e))) = false →
  err_file_of ROOT_DIR e = Ok (Path.to_str (Path.of_str (tb_filename (exc_tb e)))).
Proof.
  intros H. unfold err_file_of, Path.relative_to. rewrite H. reflexivity.
Qed.

(** The formatter finds a file text unless the path lies below the root and
    has no folder part. *)
Lemma err_file_of_total (ROOT_DIR : list string) (e : exc_info) :
  (Path.is_prefix ROOT_DIR (Path.of_str (tb_filename (exc_tb e))) = true →
   (2 ≤ List.length (Path.of_str (tb_filename (exc_tb e))))%nat) →
  ∃ file, err_file_of ROOT_DIR e = Ok file.
Proof.
  intros H.
  destruct (Path.is_prefix ROOT_DIR (Path.of_str (tb_filename (exc_tb e))))
    eqn:Hpre.
  - destruct (two_last _ (H eq_refl)) as (pre & folder & name & Hp).
    rewrite (err_file_of_two ROOT_DIR e pre folder name Hp). eauto.
  - rewrite (err_file_of_outside ROOT_DIR e Hpre). eauto.
Qed.

Lemma detailed_exception_ok (ROOT_DIR : list string) (e : exc_info)
    (file : string) :
  has_char "'" (short_name (exc_type e)) = false →
  err_file_of ROOT_DIR e = Ok file →
  detailed_exception ROOT_DIR e =
  Ok (exception_text file (tb_lineno (exc_tb e)) (short_name (exc_type e))
        (exc_text e) (cls_doc (exc_type e))).
Proof.
  intros Hq Hf. unfold detailed_exception.
  rewrite Hf, (_customFormatException_ok e Hq). reflexivity.
Qed.

Lemma flag_exception_flagged (b : bool) (kw : kwargs) :
  is_exception_flagged (kw_extra (flag_exception b kw)) = true.
Proof.
  unfold is_exception_flagged, flag_exception. cbn [kw_extra].
  apply bool_decide_eq_true. rewrite lookup_insert_eq. eauto.
Qed.

(** C6.  A log call flagged as an exception, made while the exception [e] is
    active, passes on the original message followed by a space and, in
    brackets, the text "Exception in <file>:<line> - <type-name> -
    <exception-text> - <type-docstring>"; [exception] of the logger and of
    the adapter flag every call they make.  The class name holds no quote,
    and the file is not a path without folder below the root, the one case
    in which the formatter has no file text. *)
Theorem C6_exception_text_appended
    (ROOT_DIR : list string) (e : exc_info) (msg : string)
    (extra : option (gmap string pyval)) :
  is_exception_flagged extra = true →
  has_char "'" (short_name (exc_type e)) = false →
  (Path.is_prefix ROOT_DIR (Path.of_str (tb_filename (exc_tb e))) = true →
   (2 ≤ List.length (Path.of_str (tb_filename (exc_tb e))))%nat) →
  ∃ file,
    err_file_of ROOT_DIR e = Ok file ∧
    let text :=
      "Exception in " +:+ file +:+ ":" +:+ PyStr.of_Z (tb_lineno (exc_tb e))
      +:+ " - " +:+ short_name (exc_type e) +:+ " - " +:+ exc_text e
      +:+ " - " +:+ doc_str (cls_doc (exc_type e)) in
    detailed_exception ROOT_DIR e = Ok text ∧
    _log_message ROOT_DIR (Some e) msg extra
      = Ok (msg +:+ " [" +:+ text +:+ "]") ∧
    (∀ self level w,
       CustomLogger__log ROOT_DIR (Some e) self level msg extra w =
       Logger__log self level (msg +:+ " [" +:+ text +:+ "]") w) ∧
    (∀ b kw, is_exception_flagged (kw_extra (flag_exception b kw)) = true).
Proof.
  intros Hflag Hq Hlen.
  destruct (err_file_of_total ROOT_DIR e Hlen) as [file Hf].
  exists file. split; [exact Hf |].
  pose proof (detailed_exception_ok ROOT_DIR e file Hq Hf) as Hd.
  assert (Hm : _log_message ROOT_DIR (Some e) msg extra =
               Ok (msg +:+ " [" +:+ exception_text file
                     (tb_lineno (exc_tb e)) (short_name (exc_type e))
                     (exc_text e) (cls_doc (exc_type e)) +:+ "]")).
  { unfold _log_message. rewrite Hflag. cbn [detailed_exception_now].
    rewrite Hd. reflexivity. }
  split; [exact Hd |]. split; [exact Hm |]. split.
  - intros self level w. unfold CustomLogger__log.
    rewrite Hm. reflexivity.
  - apply flag_exception_flagged.
Qed.

Lemma C6_witness :
  _log_message Sample.root (Some Sample.zde) "Oops!"
    (kw_extra (flag_exception true no_kwargs)) =
  Ok "Oops! [Exception in examples/foo.py:105 - ZeroDivisionError - division by zero - Second argument to a division or modulo operation was zero.]".
Proof.
  destruct (C6_exception_text_appended Sample.root Sample.zde "Oops!"
              (kw_extra (flag_exception true no_kwargs)))
    as (file & Hf & _ & Hm & _).
  - vm_compute. reflexivity.
  - vm_compute. reflexivity.
  - intros _. vm_compute. lia.
  - vm_compute in Hf. injection Hf as <-. exact Hm.
Defined.

Lemma to_str_absolute (p : list string) :
  Path.is_absolute p = true → String.prefix "/" (Path.to_str p) = true.
Proof.
  destruct p as [|a names]; [discriminate |].
  unfold Path.is_absolute, Path.to_str. intros H. rewrite H.
  destruct a as [|c a]; cbn [String.prefix] in H; [discriminate H |].
  cbn [String.append String.prefix].
  destruct (ascii_dec "/" c); [| discriminate H].
  destruct (a +:+ PyStr.join "/" names); reflexivity.
Qed.

(** C7, as stated, fails: a frame whose file name is not absolute, as for
    code compiled under the name [example.py], is not below the project
    root, and the formatter prints the name as it stands, which is not an
    absolute path. *)
Lemma C7_counterexample :
  let e := with_traceback Sample.zde
             {| tb_filename := "example.py"; tb_lineno := 105 |} [] in
  Path.is_prefix Sample.root (Path.of_str (tb_filename (exc_tb e))) = false ∧
  Path.is_absolute (Path.of_str (tb_filename (exc_tb e))) = false ∧
  err_file_of Sample.root e = Ok "example.py" ∧
  String.prefix "/" "example.py" = false ∧
  detailed_exception Sample.root e =
    Ok "Exception in example.py:105 - ZeroDivisionError - division by zero - Second argument to a division or modulo operation was zero.".
Proof. cbn zeta. repeat split; vm_compute; reflexivity. Qed.

(** C7, amended.  In the text of the formatter, a file below the project
    root is shown as its folder and its name joined by a slash; a file that
    is not below the root is shown by the path of the frame as it stands,
    which starts with a slash when that path is absolute; the [ValueError] of
    the failed relativization never leaves the formatter.  The class name
    holds no quote. *)
Theorem C7_file_relative_or_as_given (ROOT_DIR : list string) (e : exc_info) :
  has_char "'" (short_name (exc_type e)) = false →
  let p := Path.of_str (tb_filename (exc_tb e)) in
  let text file :=
    exception_text file (tb_lineno (exc_tb e)) (short_name (exc_type e))
      (exc_text e) (cls_doc (exc_type e)) in
  (Path.is_prefix ROOT_DIR p = true → ROOT_DIR ≠ [] →
   (List.length ROOT_DIR < List.length p)%nat →
   ∃ pre folder file,
     p = (pre ++ [folder; file])%list ∧
     err_file_of ROOT_DIR e = Ok (folder +:+ "/" +:+ file) ∧
     detailed_exception ROOT_DIR e = Ok (text (folder +:+ "/" +:+ file))) ∧
  (Path.is_prefix ROOT_DIR p = false →
   Path.relative_to p ROOT_DIR = Raise ValueError ∧
   err_file_of ROOT_DIR e = Ok (Path.to_str p) ∧
   detailed_exception ROOT_DIR e = Ok (text (Path.to_str p)) ∧
   (Path.is_absolute p = true → String.prefix "/" (Path.to_str p) = true)) ∧
  err_file_of ROOT_DIR e ≠ Raise ValueError ∧
  detailed_exception ROOT_DIR e ≠ Raise ValueError.
Proof.
  intros Hq p text.
  assert (Hnv : err_file_of ROOT_DIR e ≠ Raise ValueError).
  { unfold err_file_of, suppress.
    destruct (_ ← Path.relative_to _ _; _) as [a|[]]; cbn; congruence. }
  split; [| split; [| split]].
  - intros Hpre Hne Hlen.
    assert (H2 : (2 ≤ List.length p)%nat).
    { destruct ROOT_DIR; [congruence | simpl in Hlen; lia]. }
    destruct (two_last _ H2) as (pre & folder & file & Hp).
    exists pre, folder, file. split; [exact Hp |].
    assert (Hf : err_file_of ROOT_DIR e = Ok (folder +:+ "/" +:+ file)).
    { rewrite (err_file_of_two ROOT_DIR e pre folder file Hp).
      rewrite <- Hp. fold p. rewrite Hpre. reflexivity. }
    split; [exact Hf |]. apply (detailed_exception_ok ROOT_DIR e _ Hq Hf).
  - intros Hpre.
    assert (Hf : err_file_of ROOT_DIR e = Ok (Path.to_str p)).
    { unfold err_file_of, Path.relative_to. fold p. rewrite Hpre. reflexivity. }
    split; [unfold Path.relative_to; rewrite Hpre; reflexivity |].
    split; [exact Hf |].
    split; [apply (detailed_exception_ok ROOT_DIR e _ Hq Hf) |].
    apply to_str_absolute.
  - exact Hnv.
  - intros E. unfold detailed_exception in E.
    destruct (err_file_of ROOT_DIR e) as [f|x] eqn:Ef; cbn in E.
    + unfold _customFormatException, py_index in E.
      destruct (_ !! 1%nat); cbn in E; discriminate.
    + injection E as ->. contradiction.
Qed.

Lemma C7_witness :
  (∃ pre folder file,
     Path.of_str "/proj/examples/foo.py" = (pre ++ [folder; file])%list ∧
     err_file_of Sample.root Sample.zde = Ok (folder +:+ "/" +:+ file) ∧
     detailed_exception Sample.root Sample.zde =
       Ok (exception_text (folder +:+ "/" +:+ file) 105 "ZeroDivisionError"
             "division by zero"
             (Some "Second argument to a division or modulo operation was zero."))) ∧
  detailed_exception ["/"; "srv"] Sample.zde =
    Ok "Exception in /proj/examples/foo.py:105 - ZeroDivisionError - division by zero - Second argument to a division or modulo operation was zero.".
Proof.
  pose proof (C7_file_relative_or_as_given Sample.root Sample.zde eq_refl)
    as [Hin _].
  pose proof (C7_file_relative_or_as_given ["/"; "srv"] Sample.zde eq_refl)
    as [_ [Hout _]].
  split.
  - apply Hin; [reflexivity | discriminate | vm_compute; lia].
  - apply (proj1 (proj2 (proj2 (Hout eq_refl)))).
Defined.

(** C8, as stated, fails: for a division by zero on line 3 of [lib/foo.py],
    called from line 10 of [examples/bar.py] where it is caught, the
    formatter names [examples/bar.py:10], not the innermost frame. *)
Lemma C8_counterexample :
  innermost Sample.zde_called =
    {| tb_filename := "/proj/lib/foo.py"; tb_lineno := 3 |} ∧
  detailed_exception Sample.root Sample.zde_called =
    Ok "Exception in examples/bar.py:10 - ZeroDivisionError - division by zero - Second argument to a division or modulo operation was zero." ∧
  spec_detailed_exception_innermost Sample.root Sample.zde_called =
    Ok "Exception in lib/foo.py:3 - ZeroDivisionError - division by zero - Second argument to a division or modulo operation was zero." ∧
  detailed_exception Sample.root Sample.zde_called
    ≠ spec_detailed_exception_innermost Sample.root Sample.zde_called ∧
  (∀ s, detailed_exception Sample.root Sample.zde_called = Ok s →
        PyStr.contains "foo.py:3" s = false).
Proof.
  split; [| split; [| split; [| split]]].
  - reflexivity.
  - vm_compute. reflexivity.
  - vm_compute. reflexivity.
  - vm_compute. discriminate.
  - intros s H. vm_compute in H. injection H as <-. vm_compute. reflexivity.
Qed.

(** C8, amended.  File and line are those of the first traceback entry, the
    frame in which the exception is handled: the frames below it do not
    change the text.  When the exception is raised in that very frame, the
    entry is the innermost one, and for a [ZeroDivisionError] raised there on
    line [N] of a file [foo.py] under the project root the text contains
    "foo.py:N", the name [ZeroDivisionError] and the text of the exception. *)
Theorem C8_line_of_handling_frame (ROOT_DIR : list string) (e : exc_info) :
  (∀ next,
     detailed_exception ROOT_DIR (with_traceback e (exc_tb e) next) =
     detailed_exception ROOT_DIR e) ∧
  (exc_tb_next e = [] → innermost e = exc_tb e) ∧
  (∀ N pre folder,
     exc_type e = ZeroDivisionError_class →
     exc_tb_next e = [] →
     tb_lineno (innermost e) = N →
     Path.of_str (tb_filename (innermost e)) = (pre ++ [folder; "foo.py"])%list →
     Path.is_prefix ROOT_DIR (pre ++ [folder; "foo.py"]) = true →
     ∃ s, detailed_exception ROOT_DIR e = Ok s ∧
          PyStr.contains ("foo.py:" +:+ PyStr.of_Z N) s = true ∧
          PyStr.contains "ZeroDivisionError" s = true ∧
          PyStr.contains (exc_text e) s = true).
Proof.
  split; [| split].
  - intros next. reflexivity.
  - intros H. unfold innermost. rewrite H. reflexivity.
  - intros N pre folder Hty Hnext HN Hp Hpre.
    assert (Hin : innermost e = exc_tb e).
    { unfold innermost. rewrite Hnext. reflexivity. }
    rewrite Hin in HN, Hp.
    pose proof (err_file_of_two ROOT_DIR e pre folder "foo.py" Hp) as Hf.
    rewrite Hpre in Hf.
    assert (Hq : has_char "'" (short_name (exc_type e)) = false).
    { rewrite Hty. reflexivity. }
    rewrite (detailed_exception_ok ROOT_DIR e _ Hq Hf).
    eexists. split; [reflexivity |].
    rewrite HN, Hty. unfold exception_text.
    cbn [short_name ZeroDivisionError_class cls_module cls_qualname cls_doc
         String.eqb Ascii.eqb Bool.eqb doc_str].
    set (tail := " - " +:+ exc_text e +:+ " - " +:+
                 doc_str (Some "Second argument to a division or modulo operation was zero.")).
    split; [| split].
    + apply (contains_in _ _ ("Exception in " +:+ folder +:+ "/")
               (" - " +:+ "ZeroDivisionError" +:+ tail)).
      rewrite !append_assoc. reflexivity.
    + apply (contains_in _ _
               ("Exception in " +:+ (folder +:+ "/" +:+ "foo.py") +:+ ":"
                +:+ PyStr.of_Z N +:+ " - ") tail).
      rewrite !append_assoc. reflexivity.
    + apply (contains_in _ _
               ("Exception in " +:+ (folder +:+ "/" +:+ "foo.py") +:+ ":"
                +:+ PyStr.of_Z N +:+ " - " +:+ "ZeroDivisionError" +:+ " - ")
               (" - " +:+
                doc_str (Some "Second argument to a division or modulo operation was zero."))).
      rewrite !append_assoc. reflexivity.
Qed.

Lemma C8_witness :
  ∃ s, detailed_exception Sample.root Sample.zde = Ok s ∧
       PyStr.contains "foo.py:105" s = true ∧
       PyStr.contains "ZeroDivisionError" s = true ∧
       PyStr.contains "division by zero" s = true.
Proof.
  apply (proj2 (proj2 (C8_line_of_handling_frame Sample.root Sample.zde))
           105%Z ["/"; "proj"] "examples");
    reflexivity.
Defined.

(** ** The registry *)

Lemma alter_last {A} (f : A → A) (l : list A) (x : A) :
  alter f (List.length l) (l ++ [x])%list = (l ++ [f x])%list.
Proof.
  rewrite alter_app_r_alt by lia. rewrite Nat.sub_diag. reflexivity.
Qed.

Lemma bind_ok {A B} (m : M A) (f : A → M B) (w w' : world) (a : A) :
  m w = (Ok a, w') → (m ≫= f) w = f a w'.
Proof. intros H. unfold mbind, M_bind. rewrite H. reflexivity. Qed.

Lemma bind_raise {A B} (m : M A) (f : A → M B) (w w' : world) (e : exn) :
  m w = (Raise e, w') → (m ≫= f) w = (Raise e, w').
Proof. intros H. unfold mbind, M_bind. rewrite H. reflexivity. Qed.

Lemma shared_get_ok (k : string) (v : pyval) (w : world) :
  shared w !! k = Some v → shared_get k w = (Ok v, w).
Proof. intros H. unfold shared_get. rewrite H. reflexivity. Qed.

Lemma shared_get_none (k : string) (w : world) :
  shared w !! k = None → shared_get k w = (Raise KeyError, w).
Proof. intros H. unfold shared_get. rewrite H. reflexivity. Qed.

Lemma lift_ok {A} (o : outcome A) (a : A) (w : world) :
  o = Ok a → lift o w = (Ok a, w).
Proof. intros ->. reflexivity. Qed.

Lemma lift_raise {A} (o : outcome A) (e : exn) (w : world) :
  o = Raise e → lift o w = (Raise e, w).
Proof. intros ->. reflexivity. Qed.

(** One step of a computation whose head reads the shared state, or lifts a
    result that is known. *)
Ltac read_ok H := rewrite (bind_ok _ _ _ _ _ (shared_get_ok _ _ _ H)).
Ltac lift_ok H := rewrite (bind_ok (lift _) _ _ _ _ (lift_ok _ _ _ H)).
Tactic Notation "unit_ok" uconstr(m) :=
  rewrite (bind_ok m _ _ _ tt eq_refl).

Lemma FileHandler_ok (p : list string) (w : world) :
  p ∉ denied w →
  FileHandler (VPath p) w =
  (Ok (List.length (handlers w)),
   with_opened (fun o => o ++ [p])%list
     (with_handlers
        (fun hs => hs ++ [{| h_sink := File p; h_level := Level.NOTSET;
                             h_fmt := ""; h_datefmt := "" |}])%list w)).
Proof.
  intros H. unfold FileHandler. rewrite bool_decide_eq_false_2 by exact H.
  reflexivity.
Qed.

Lemma Handler_setLevel_ok (h : nat) (v : pyval) (lv : Z) (w : world) :
  Level._checkLevel v = Ok lv →
  Handler_setLevel h v w =
  (Ok tt, with_handlers (alter (fun x =>
    {| h_sink := h_sink x; h_level := lv;
       h_fmt := h_fmt x; h_datefmt := h_datefmt x |}) h) w).
Proof. intros H. unfold Handler_setLevel. rewrite H. reflexivity. Qed.

Lemma Logger_setLevel_ok (lg : nat) (v : pyval) (lv : Z) (w : world) :
  Level._checkLevel v = Ok lv →
  Logger_setLevel lg v w =
  (Ok tt, with_loggers (alter (fun x =>
    {| l_name := l_name x; l_level := lv; l_handlers := l_handlers x |}) lg) w).
Proof. intros H. unfold Logger_setLevel. rewrite H. reflexivity. Qed.

(** The two handlers are in place: what [_config_logger] has done when it
    reads the name of the logger. *)
Lemma _config_logger_handlers (w : world) (rl d f : pyval) (lv : Z)
    (p : list string) :
  shared w !! "root_level" = Some rl → Level._checkLevel rl = Ok lv →
  shared w !! "log_file_path" = Some d →
  shared w !! "log_file_name" = Some f →
  truediv d f = Ok (VPath p) → p ∉ denied w →
  _config_logger w =
  (name ← shared_get "name";
   main_logger ← CustomLogger name;
   addHandler main_logger (S (List.length (handlers w)));;
   addHandler main_logger (List.length (handlers w));;
   Logger_setLevel main_logger rl;;
   shared_set "main_logger" (VLogger main_logger))
    (with_opened (fun o => o ++ [p])%list
       (with_handlers (fun hs => hs ++
          [{| h_sink := File p; h_level := lv;
              h_fmt := file_format; h_datefmt := file_datefmt |};
           {| h_sink := Console; h_level := lv;
              h_fmt := console_format; h_datefmt := console_datefmt |}])%list
          w)).
Proof.
  intros Hrl Hlv Hd Hf Hdiv Hden.
  unfold _config_logger.
  read_ok Hrl. lift_ok Hlv. read_ok Hd. read_ok Hf. lift_ok Hdiv.
  rewrite (bind_ok _ _ w _ _ (FileHandler_ok p w Hden)).
  unit_ok (setFormatter _ _ _).
  rewrite (bind_ok (Handler_setLevel _ _) _ _ _ tt
             (Handler_setLevel_ok _ _ _ _ Hlv)).
  rewrite (bind_ok StreamHandler _ _ _ _ eq_refl).
  unit_ok (setFormatter _ _ _).
  rewrite (bind_ok (Handler_setLevel _ _) _ _ _ tt
             (Handler_setLevel_ok _ _ _ _ Hlv)).
  destruct w as [sh ls hs op dn out].
  cbv [with_handlers with_opened shared loggers handlers opened denied output].
  rewrite !(alter_last _ hs).
  rewrite !(alter_last _ (hs ++ [_])).
  cbn [h_sink h_level h_fmt h_datefmt].
  rewrite length_app, Nat.add_1_r, <- !app_assoc. cbn [app List.length].
  reflexivity.
Qed.

Lemma _config_logger_ok (w : world) (lv : Z) (p : list string) (nm : pyval) :
  can_construct w lv p nm →
  _config_logger w = (Ok tt, constructed w lv p nm).
Proof.
  intros (rl & d & f & Hrl & Hlv & Hd & Hf & Hdiv & Hden & Hnm).
  rewrite (_config_logger_handlers w rl d f lv p Hrl Hlv Hd Hf Hdiv Hden).
  erewrite bind_ok by (apply shared_get_ok; exact Hnm).
  rewrite (bind_ok (CustomLogger _) _ _ _ _ eq_refl).
  unit_ok (addHandler _ _). unit_ok (addHandler _ _).
  rewrite (bind_ok (Logger_setLevel _ _) _ _ _ tt
             (Logger_setLevel_ok _ _ _ _ Hlv)).
  unfold shared_set, modify. f_equal.
  destruct w as [sh ls hs op dn out].
  cbv [with_shared with_loggers with_handlers with_opened constructed
       shared loggers handlers opened denied output].
  rewrite !(alter_last _ ls).
  cbn [l_name l_level l_handlers].
  rewrite (bool_decide_eq_false_2 (_ ∈ [])) by apply not_elem_of_nil.
  cbn [app].
  rewrite (bool_decide_eq_false_2 (_ ∈ [_]))
    by (rewrite list_elem_of_singleton; lia).
  reflexivity.
Qed.

Lemma ensure_logger_present (w : world) :
  logger_present w → ensure_logger w = (Ok tt, w).
Proof.
  intros (v & Hv & Ht). unfold ensure_logger.
  rewrite (bind_ok _ _ w w v (shared_get_ok _ _ _ Hv)), Ht. reflexivity.
Qed.

Lemma ensure_logger_absent (w : world) :
  logger_absent w → ensure_logger w = _config_logger w.
Proof.
  intros (v & Hv & Ht). unfold ensure_logger.
  rewrite (bind_ok _ _ w w v (shared_get_ok _ _ _ Hv)), Ht. reflexivity.
Qed.

Lemma constructed_main_logger (w : world) (lv : Z) (p : list string) (nm : pyval) :
  shared (constructed w lv p nm) !! "main_logger"
  = Some (VLogger (List.length (loggers w))).
Proof. unfold constructed. cbn [shared]. apply lookup_insert_eq. Qed.

Lemma constructed_present (w : world) (lv : Z) (p : list string) (nm : pyval) :
  logger_present (constructed w lv p nm).
Proof. eexists. split; [apply constructed_main_logger | reflexivity]. Qed.

Lemma acquire_present (c : acquisition) (w : world) (v : pyval) :
  shared w !! "main_logger" = Some v → truthy v = true →
  acquire c w = (Ok (finish c v), w).
Proof.
  intros Hv Ht.
  assert (Hp : logger_present w) by (exists v; auto).
  destruct c; unfold acquire, get_logger, get_adapter.
  - rewrite (bind_ok (ensure_logger ≫= _) _ w w v); [reflexivity |].
    rewrite (bind_ok _ _ w w tt (ensure_logger_present w Hp)).
    apply shared_get_ok, Hv.
  - rewrite (bind_ok (ensure_logger ≫= _) _ w w
               {| ad_logger := v; ad_extra := context_info |}); [reflexivity |].
    rewrite (bind_ok _ _ w w tt (ensure_logger_present w Hp)).
    rewrite (bind_ok _ _ w w v (shared_get_ok _ _ _ Hv)). reflexivity.
Qed.

Lemma acquire_absent (c : acquisition) (w : world) (lv : Z) (p : list string)
    (nm : pyval) :
  logger_absent w → can_construct w lv p nm →
  acquire c w =
  (Ok (finish c (VLogger (List.length (loggers w)))), constructed w lv p nm).
Proof.
  intros Ha Hc.
  pose proof (ensure_logger_absent w Ha) as He.
  rewrite (_config_logger_ok w lv p nm Hc) in He.
  pose proof (constructed_main_logger w lv p nm) as Hm.
  destruct c; unfold acquire, get_logger, get_adapter.
  - rewrite (bind_ok (ensure_logger ≫= _) _ w (constructed w lv p nm)
               (VLogger (List.length (loggers w)))); [reflexivity |].
    rewrite (bind_ok _ _ w _ tt He).
    apply shared_get_ok, Hm.
  - rewrite (bind_ok (ensure_logger ≫= _) _ w (constructed w lv p nm)
               {| ad_logger := VLogger (List.length (loggers w));
                  ad_extra := context_info |}); [reflexivity |].
    rewrite (bind_ok _ _ w _ tt He).
    rewrite (bind_ok _ _ _ _ _ (shared_get_ok _ _ _ Hm)). reflexivity.
Qed.

Lemma acquire_all_present (calls : list acquisition) (w : world) (v : pyval) :
  shared w !! "main_logger" = Some v → truthy v = true →
  acquire_all calls w = (Ok (List.map (fun c => finish c v) calls), w).
Proof.
  intros Hv Ht. induction calls as [|c calls IH]; [reflexivity |].
  cbn [acquire_all List.map].
  rewrite (bind_ok _ _ w w _ (acquire_present c w v Hv Ht)).
  rewrite (bind_ok _ _ w w _ IH). reflexivity.
Qed.

Lemma underlying_finish (c : acquisition) (v : pyval) :
  underlying (finish c v) = v.
Proof. destruct c; reflexivity. Qed.

Lemma constructed_one_pair (w : world) (lv : Z) (p : list string) (nm : pyval) :
  one_pair (constructed w lv p nm) (VLogger (List.length (loggers w))) lv p nm.
Proof.
  exists (List.length (loggers w)), (S (List.length (handlers w))),
    (List.length (handlers w)).
  unfold constructed. cbn [loggers handlers].
  split; [reflexivity |]. split; [| split; [lia | split]].
  - apply list_lookup_middle. reflexivity.
  - change (handlers w ++ [?a; ?b])%list with (handlers w ++ [a] ++ [b])%list.
    rewrite app_assoc. apply list_lookup_middle.
    rewrite length_app. cbn [List.length]. lia.
  - apply list_lookup_middle. reflexivity.
Qed.

Lemma geb_true (a b : Z) : (b ≤ a)%Z → (a >=? b)%Z = true.
Proof. intros H. rewrite Z.geb_leb. apply Z.leb_le, H. Qed.

Lemma geb_false (a b : Z) : (a < b)%Z → (a >=? b)%Z = false.
Proof. intros H. rewrite Z.geb_leb. apply Z.leb_gt, H. Qed.

(** A message the logger and both handlers let through is written once to the
    console and once to the file. *)
Lemma one_pair_emits_once (ROOT_DIR : list string) (active : option exc_info)
    (w : world) (v : pyval) (lv : Z) (p : list string) (nm : pyval)
    (level : Z) (msg : string) :
  one_pair w v lv p nm → (0 < level)%Z → (lv ≤ level)%Z →
  Logger_log ROOT_DIR active v level msg no_kwargs w =
  (Ok tt, with_output (fun o => o ++ both_lines p level msg)%list w).
Proof.
  intros (id & hc & hf & -> & Hlg & Hne & Hc & Hf) Hpos Hle.
  assert (Hd : deref (VLogger id) w =
               (Ok {| l_name := nm; l_level := lv; l_handlers := [hc; hf] |}, w)).
  { unfold deref. rewrite Hlg. reflexivity. }
  unfold Logger_log.
  rewrite (bind_ok _ _ w w _ Hd).
  unfold isEnabledFor. cbn [l_level].
  rewrite (geb_false 0 level Hpos), (geb_true level lv Hle).
  cbn [negb andb].
  unfold CustomLogger__log, _log_message, no_kwargs. cbn [kw_extra is_exception_flagged].
  rewrite (bind_ok (lift _) _ w w msg eq_refl).
  unfold Logger__log. rewrite (bind_ok _ _ w w _ Hd).
  unfold callHandlers. cbn [l_handlers for_each].
  unfold mbind, M_bind. rewrite Hc. cbn [h_level h_sink].
  rewrite (geb_true level lv Hle).
  cbn [with_output handlers]. rewrite Hf. cbn [h_level h_sink].
  rewrite (geb_true level lv Hle).
  unfold mret, M_ret, with_output, both_lines. cbn [shared loggers handlers opened denied output].
  rewrite <- app_assoc. reflexivity.
Qed.

(** C3.  Starting without a logger and with a configuration that allows
    the construction, any number of acquisition calls, [get_logger] or
    [get_adapter] in any mix, all succeed and hand out one and the same
    logger; the store after the last call is the store after the first, so
    exactly one logger, one console handler and one file handler were
    created and the file was opened once; a message that logger lets through is
    written exactly once to the console and once to the file. *)
Theorem C3_acquisition_idempotent
    (w : world) (c : acquisition) (calls : list acquisition)
    (lv : Z) (p : list string) (nm : pyval) :
  logger_absent w → can_construct w lv p nm →
  let w1 := constructed w lv p nm in
  let lg := VLogger (List.length (loggers w)) in
  acquire c w = (Ok (finish c lg), w1) ∧
  acquire_all (c :: calls) w =
    (Ok (List.map (fun c => finish c lg) (c :: calls)), w1) ∧
  Forall (fun r => underlying r = lg)
    (List.map (fun c => finish c lg) (c :: calls)) ∧
  one_pair w1 lg lv p nm ∧
  List.length (loggers w1) = S (List.length (loggers w)) ∧
  List.length (handlers w1) = S (S (List.length (handlers w))) ∧
  opened w1 = (opened w ++ [p])%list ∧
  (∀ ROOT_DIR active level msg,
     (0 < level)%Z → (lv ≤ level)%Z →
     Logger_log ROOT_DIR active lg level msg no_kwargs w1 =
     (Ok tt, with_output (fun o => o ++ both_lines p level msg)%list w1)).
Proof.
  intros Ha Hc w1 lg.
  pose proof (acquire_absent c w lv p nm Ha Hc) as H1.
  split; [exact H1 |]. split; [| split; [| split; [| split; [| split; [| split]]]]].
  - cbn [acquire_all List.map].
    rewrite (bind_ok _ _ w w1 _ H1).
    rewrite (bind_ok _ _ w1 w1 _
               (acquire_all_present calls w1 lg
                  (constructed_main_logger w lv p nm) eq_refl)).
    reflexivity.
  - apply Forall_forall. intros r Hr.
    apply list_elem_of_In, in_map_iff in Hr as (c' & <- & _).
    apply underlying_finish.
  - apply constructed_one_pair.
  - unfold w1, constructed. cbn [loggers]. rewrite length_app. cbn. lia.
  - unfold w1, constructed. cbn [handlers]. rewrite length_app. cbn. lia.
  - reflexivity.
  - intros ROOT_DIR active level msg Hpos Hle.
    apply (one_pair_emits_once ROOT_DIR active w1 lg lv p nm);
      [apply constructed_one_pair | exact Hpos | exact Hle].
Qed.

Lemma valid_checkLevel (v : pyval) :
  Level.valid v = false →
  ∃ e, (e = ValueError ∨ e = TypeError) ∧ Level._checkLevel v = Raise e.
Proof.
  destruct v; cbn; intros H; try discriminate H;
    try (exists TypeError; split; [auto | reflexivity]).
  apply bool_decide_eq_false in H.
  destruct (Level._nameToLevel s) as [z|].
  - destruct H. eauto.
  - exists ValueError. auto.
Qed.

Lemma checkLevel_valid (v : pyval) (lv : Z) :
  Level._checkLevel v = Ok lv → Level.valid v = true.
Proof.
  destruct v; cbn; intros H; try discriminate H; try reflexivity.
  destruct (Level._nameToLevel s); [|discriminate H].
  apply bool_decide_eq_true. eauto.
Qed.

Lemma _config_logger_invalid (w : world) (rl : pyval) (e : exn) :
  shared w !! "root_level" = Some rl → Level._checkLevel rl = Raise e →
  _config_logger w = (Raise e, w).
Proof.
  intros Hrl He. unfold _config_logger.
  read_ok Hrl. apply bind_raise, lift_raise, He.
Qed.

(** C5.  When the level in the shared state is invalid, the first
    acquisition call raises ([ValueError] for an unknown level name,
    [TypeError] for a value that is no level) and leaves the store exactly as
    it was: no handler created or attached, no file opened, the logger
    reference still absent. *)
Theorem C5_invalid_level_fails_fast
    (w : world) (c : acquisition) (rl : pyval) :
  logger_absent w →
  shared w !! "root_level" = Some rl → Level.valid rl = false →
  ∃ e, (e = ValueError ∨ e = TypeError) ∧
       acquire c w = (Raise e, w) ∧
       handlers (snd (acquire c w)) = handlers w ∧
       loggers (snd (acquire c w)) = loggers w ∧
       opened (snd (acquire c w)) = opened w ∧
       logger_absent (snd (acquire c w)).
Proof.
  intros Ha Hrl Hv.
  destruct (valid_checkLevel rl Hv) as (e & He & Hc).
  exists e. split; [exact He |].
  assert (H : acquire c w = (Raise e, w)).
  { pose proof (ensure_logger_absent w Ha) as Hen.
    rewrite (_config_logger_invalid w rl e Hrl Hc) in Hen.
    destruct c; unfold acquire, get_logger, get_adapter;
      apply bind_raise, bind_raise, Hen. }
  rewrite H. cbn [snd]. auto.
Qed.

(** ** The merge of overrides *)

Lemma key_in_shared_Some (k : pyval) (st : gmap string pyval) (s : string) :
  key_in_shared k st = Some s ↔ k = VStr s ∧ is_Some (st !! s).
Proof.
  unfold key_in_shared.
  destruct k;
    try (split; [intros H; discriminate H | intros [H _]; discriminate H]).
  case_bool_decide as Hs; split.
  - intros H. injection H as ->. auto.
  - intros [H _]. injection H as ->. reflexivity.
  - intros H. discriminate H.
  - intros [H Hs']. injection H as ->. contradiction.
Qed.

Lemma key_in_shared_dom (k : pyval) (st st' : gmap string pyval) :
  dom st' = dom st → key_in_shared k st' = key_in_shared k st.
Proof.
  intros Hd. unfold key_in_shared. destruct k; try reflexivity.
  assert (H : is_Some (st' !! s) ↔ is_Some (st !! s)).
  { rewrite <- !elem_of_dom, Hd. reflexivity. }
  destruct (bool_decide_reflect (is_Some (st' !! s))) as [H1|H1],
           (bool_decide_reflect (is_Some (st !! s))) as [H2|H2];
    try reflexivity; tauto.
Qed.

Lemma merge_item_dom (st : gmap string pyval) (kv : pyval * pyval) :
  dom (merge_item st kv) = dom st.
Proof.
  unfold merge_item. destruct (key_in_shared kv.1 st) as [k|] eqn:E; [|reflexivity].
  apply key_in_shared_Some in E as [_ Hs].
  rewrite dom_insert_L. apply elem_of_dom in Hs.
  apply set_eq. intros x. rewrite elem_of_union, elem_of_singleton.
  split; [intros [->|Hx]; assumption | auto].
Qed.

Lemma merged_dom (st : gmap string pyval) (items : list (pyval * pyval)) :
  dom (merged st items) = dom st.
Proof.
  revert st. induction items as [|a items IH]; intros st; [reflexivity |].
  unfold merged in *. cbn [foldl]. rewrite IH. apply merge_item_dom.
Qed.

Lemma merged_cons (st : gmap string pyval) (a : pyval * pyval)
    (items : list (pyval * pyval)) :
  merged st (a :: items) = merged (merge_item st a) items.
Proof. reflexivity. Qed.

Lemma recognized_dom (st st' : gmap string pyval) (kv : pyval * pyval) :
  dom st' = dom st → recognized st' kv = recognized st kv.
Proof. intros H. unfold recognized. rewrite (key_in_shared_dom _ _ _ H). reflexivity. Qed.

Lemma filter_recognized_dom (st st' : gmap string pyval)
    (items : list (pyval * pyval)) :
  dom st' = dom st →
  List.filter (recognized st') items = List.filter (recognized st) items.
Proof.
  intros H. induction items as [|a items IH]; [reflexivity |].
  cbn [List.filter]. rewrite IH, (recognized_dom _ _ _ H). reflexivity.
Qed.

Lemma merged_filter (st : gmap string pyval) (items : list (pyval * pyval)) :
  merged st items = merged st (List.filter (recognized st) items).
Proof.
  revert st. induction items as [|a items IH]; intros st; [reflexivity |].
  rewrite merged_cons, IH. cbn [List.filter].
  rewrite (filter_recognized_dom st (merge_item st a)) by apply merge_item_dom.
  destruct (key_in_shared a.1 st) as [k|] eqn:E.
  - assert (recognized st a = true) as ->
      by (unfold recognized; rewrite E; reflexivity).
    rewrite merged_cons. reflexivity.
  - assert (recognized st a = false) as ->
      by (unfold recognized; rewrite E; reflexivity).
    assert (merge_item st a = st) as ->
      by (unfold merge_item; rewrite E; reflexivity).
    reflexivity.
Qed.

Lemma merged_lookup (st : gmap string pyval) (items : list (pyval * pyval))
    (k : string) :
  merged st items !! k =
  match st !! k with
  | Some old => Some (default old (lookup_items items k))
  | None => None
  end.
Proof.
  revert st. induction items as [|[key v] items IH]; intros st.
  - cbn. destruct (st !! k); reflexivity.
  - rewrite merged_cons, IH. unfold merge_item. cbn [fst snd].
    destruct (key_in_shared key st) as [k'|] eqn:E.
    + apply key_in_shared_Some in E as [-> [old Hold]].
      cbn [lookup_items].
      destruct (decide (k' = k)) as [->|Hne].
      * rewrite lookup_insert_eq, Hold, String.eqb_refl.
        destruct (lookup_items items k); reflexivity.
      * rewrite lookup_insert_ne by exact Hne.
        destruct (st !! k) as [o|]; [|reflexivity].
        destruct (lookup_items items k); [reflexivity |].
        destruct (String.eqb_spec k k'); [congruence | reflexivity].
    + destruct (st !! k) as [o|] eqn:Hk; [|reflexivity].
      destruct key; cbn [lookup_items]; try reflexivity.
      destruct (lookup_items items k); [reflexivity |].
      destruct (String.eqb_spec k s) as [<-|]; [|reflexivity].
      exfalso. unfold key_in_shared in E.
      rewrite bool_decide_eq_true_2 in E by eauto. discriminate.
Qed.

Lemma with_shared_id (w : world) : with_shared (fun _ => shared w) w = w.
Proof. destruct w; reflexivity. Qed.

Lemma merge_config_spec (items : list (pyval * pyval)) (w : world) :
  merge_config items w =
  (Ok tt, with_shared (fun _ => merged (shared w) items) w).
Proof.
  revert w. induction items as [|a items IH]; intros w.
  - cbn. rewrite with_shared_id. reflexivity.
  - unfold merge_config in *. cbn [for_each].
    rewrite merged_cons. unfold merge_item.
    destruct (key_in_shared a.1 (shared w)) as [k|] eqn:E.
    + rewrite (bind_ok _ _ w (with_shared (insert k a.2) w) tt)
        by (cbn beta; rewrite E; reflexivity).
      rewrite IH. destruct w; reflexivity.
    + rewrite (bind_ok _ _ w w tt) by (cbn beta; rewrite E; reflexivity).
      apply IH.
Qed.

Lemma __new___dict (items : list (pyval * pyval)) (w : world) :
  __new__ (CfgDict items) w =
  ensure_logger (with_shared (fun _ => merged (shared w) items) w).
Proof.
  unfold __new__. rewrite (bind_ok _ _ w _ tt (merge_config_spec items w)).
  reflexivity.
Qed.

Lemma __new___other (cfg : config_arg) (w : world) :
  (∀ items, cfg ≠ CfgDict items) → __new__ cfg w = ensure_logger w.
Proof.
  intros H. destruct cfg; try reflexivity. now destruct (H items).
Qed.

(** C10.  The merge of [__new__] keeps the set of fields of the shared
    state; it acts as if the unrecognized items were not there; a field
    takes the value the mapping binds to its name, or keeps its own; the
    merge itself never raises; and the fields of the shared state are
    [name], [main_logger], [root_level], [log_file_path] and
    [log_file_name]. *)
Theorem C10_unrecognized_keys_ignored
    (st : gmap string pyval) (items : list (pyval * pyval)) :
  dom (merged st items) = dom st ∧
  merged st items = merged st (List.filter (recognized st) items) ∧
  (∀ k, merged st items !! k =
        match st !! k with
        | Some old => Some (default old (lookup_items items k))
        | None => None
        end) ∧
  (∀ w, merge_config items w =
        (Ok tt, with_shared (fun _ => merged (shared w) items) w)) ∧
  (∀ w, __new__ (CfgDict items) w =
        __new__ (CfgDict (List.filter (recognized (shared w)) items)) w) ∧
  (∀ argv ROOT_DIR now,
     dom (_shared_state argv ROOT_DIR now) =
     {[ "name"; "main_logger"; "root_level"; "log_file_path"; "log_file_name" ]}).
Proof.
  split; [apply merged_dom |]. split; [apply merged_filter |].
  split; [apply merged_lookup |]. split; [intros w; apply merge_config_spec |].
  split.
  - intros w. rewrite !__new___dict, <- merged_filter. reflexivity.
  - intros argv ROOT_DIR now. unfold _shared_state.
    rewrite !dom_insert_L, dom_empty_L. set_solver.
Qed.

Lemma truediv_path (a b v : pyval) :
  truediv a b = Ok v → ∃ p, v = VPath p.
Proof.
  destruct a, b; cbn; intros H; try discriminate H; injection H as <-; eauto.
Qed.

Lemma extends_refl (w : world) : extends w w.
Proof. split; exists []; rewrite app_nil_r; reflexivity. Qed.

Lemma constructed_extends (w : world) (lv : Z) (p : list string) (nm : pyval) :
  extends w (constructed w lv p nm).
Proof. split; eexists; reflexivity. Qed.

(** Whatever [_config_logger] does, the objects of the store stay as they
    were and nothing is written. *)
Lemma _config_logger_frame (w w' : world) (r : outcome unit) :
  _config_logger w = (r, w') →
  extends w w' ∧ output w' = output w ∧ denied w' = denied w.
Proof.
  assert (Hsame : ∀ e, _config_logger w = (Raise e, w) →
                       _config_logger w = (r, w') →
                       extends w w' ∧ output w' = output w ∧ denied w' = denied w).
  { intros e -> [= <- <-]. split; [apply extends_refl | auto]. }
  destruct (shared w !! "root_level") as [rl|] eqn:Hrl.
  2:{ apply (Hsame KeyError). unfold _config_logger.
      apply bind_raise, shared_get_none, Hrl. }
  destruct (Level._checkLevel rl) as [lv|e] eqn:Hlv.
  2:{ apply (Hsame e), (_config_logger_invalid w rl e Hrl Hlv). }
  destruct (shared w !! "log_file_path") as [d|] eqn:Hd.
  2:{ apply (Hsame KeyError). unfold _config_logger.
      read_ok Hrl. lift_ok Hlv. apply bind_raise, shared_get_none, Hd. }
  destruct (shared w !! "log_file_name") as [f|] eqn:Hf.
  2:{ apply (Hsame KeyError). unfold _config_logger.
      read_ok Hrl. lift_ok Hlv. read_ok Hd.
      apply bind_raise, shared_get_none, Hf. }
  destruct (truediv d f) as [v|e] eqn:Hdiv.
  2:{ apply (Hsame e). unfold _config_logger.
      read_ok Hrl. lift_ok Hlv. read_ok Hd. read_ok Hf.
      apply bind_raise, lift_raise, Hdiv. }
  destruct (truediv_path d f v Hdiv) as [p ->].
  destruct (decide (p ∈ denied w)) as [Hden|Hden].
  { apply (Hsame OSError). unfold _config_logger.
    read_ok Hrl. lift_ok Hlv. read_ok Hd. read_ok Hf. lift_ok Hdiv.
    apply bind_raise. unfold FileHandler.
    rewrite bool_decide_eq_true_2 by exact Hden. reflexivity. }
  destruct (shared w !! "name") as [nm|] eqn:Hnm.
  - assert (Hc : can_construct w lv p nm).
    { exists rl, d, f. auto 10. }
    rewrite (_config_logger_ok w lv p nm Hc). intros [= <- <-].
    split; [apply constructed_extends | auto].
  - rewrite (_config_logger_handlers w rl d f lv p Hrl Hlv Hd Hf Hdiv Hden).
    erewrite bind_raise by (apply shared_get_none; exact Hnm).
    intros [= <- <-].
    split; [| auto]. split; cbn [with_handlers with_opened loggers handlers].
    + exists []. rewrite app_nil_r. reflexivity.
    + eexists. reflexivity.
Qed.

Lemma extends_trans (a b c : world) : extends a b → extends b c → extends a c.
Proof.
  intros [[l1 H1] [h1 G1]] [[l2 H2] [h2 G2]]. split.
  - exists (l1 ++ l2)%list. rewrite H2, H1, app_assoc. reflexivity.
  - exists (h1 ++ h2)%list. rewrite G2, G1, app_assoc. reflexivity.
Qed.

Lemma ensure_logger_frame (w w' : world) (r : outcome unit) :
  ensure_logger w = (r, w') →
  extends w w' ∧ output w' = output w ∧ denied w' = denied w.
Proof.
  unfold ensure_logger.
  destruct (shared w !! "main_logger") as [v|] eqn:Hv.
  - rewrite (bind_ok _ _ w w v (shared_get_ok _ _ _ Hv)).
    destruct (truthy v).
    + intros [= <- <-]. split; [apply extends_refl | auto].
    + apply _config_logger_frame.
  - erewrite bind_raise by (unfold shared_get; rewrite Hv; reflexivity).
    intros [= <- <-]. split; [apply extends_refl | auto].
Qed.

Lemma __new___frame (cfg : config_arg) (w w' : world) (r : outcome unit) :
  __new__ cfg w = (r, w') → extends w w' ∧ output w' = output w.
Proof.
  destruct cfg as [|items|].
  - intros H. apply ensure_logger_frame in H as (? & ? & _). auto.
  - rewrite __new___dict. intros H.
    apply ensure_logger_frame in H as (He & Ho & _).
    split; [| exact Ho].
    refine (extends_trans _ _ _ _ He).
    split; exists []; cbn [with_shared loggers handlers];
      rewrite app_nil_r; reflexivity.
  - intros H. apply ensure_logger_frame in H as (? & ? & _). auto.
Qed.

(** C4.  For a configuration override, a mapping that does not bind the
    logger reference: the merged state holds the overrides; given before the
    first construction, the construction uses the merged values, so the
    logger and both handlers get the merged level, the file handler the
    merged path and the logger the merged name; given after the
    construction, the call succeeds and changes nothing but the shared
    state: the loggers and handlers of the store, the opened files and the
    output stay as they were, the logger keeps its pair of handlers at their
    level, and every later acquisition returns the same logger. *)
Theorem C4_configuration_overrides
    (w : world) (items : list (pyval * pyval)) :
  configuration_override items →
  let st := merged (shared w) items in
  let wm := with_shared (fun _ => st) w in
  (∀ k old v, shared w !! k = Some old → lookup_items items k = Some v →
              st !! k = Some v) ∧
  (logger_absent w → ∀ lv p nm, can_construct wm lv p nm →
     __new__ (CfgDict items) w = (Ok tt, constructed wm lv p nm) ∧
     one_pair (constructed wm lv p nm) (VLogger (List.length (loggers w)))
       lv p nm) ∧
  (logger_present w →
     __new__ (CfgDict items) w = (Ok tt, wm) ∧
     loggers wm = loggers w ∧ handlers wm = handlers w ∧
     opened wm = opened w ∧ output wm = output w ∧
     (∀ v lv p nm, one_pair w v lv p nm → one_pair wm v lv p nm) ∧
     (∀ c v, shared w !! "main_logger" = Some v →
             acquire c wm = (Ok (finish c v), wm))).
Proof.
  intros Hcfg st wm.
  assert (Hmain : st !! "main_logger" = shared w !! "main_logger").
  { unfold st. rewrite merged_lookup, Hcfg.
    destruct (shared w !! "main_logger"); reflexivity. }
  split; [| split].
  - intros k old v Hold Hv. unfold st. rewrite merged_lookup, Hold, Hv.
    reflexivity.
  - intros (v & Hv & Ht) lv p nm Hc. rewrite __new___dict. fold st. fold wm.
    assert (Ha : logger_absent wm).
    { exists v. split; [| exact Ht]. rewrite <- Hv, <- Hmain.
      destruct w; reflexivity. }
    rewrite (ensure_logger_absent wm Ha).
    split; [apply _config_logger_ok, Hc |].
    apply (constructed_one_pair wm lv p nm).
  - intros (v & Hv & Ht).
    assert (Hvm : shared wm !! "main_logger" = Some v).
    { rewrite <- Hv, <- Hmain. destruct w; reflexivity. }
    assert (Hp : logger_present wm) by (exists v; auto).
    rewrite __new___dict. fold st. fold wm.
    split; [apply ensure_logger_present, Hp |].
    split; [destruct w; reflexivity |]. split; [destruct w; reflexivity |].
    split; [destruct w; reflexivity |]. split; [destruct w; reflexivity |].
    split.
    + intros v' lv p nm H. destruct w; exact H.
    + intros c v' Hv'. rewrite Hv in Hv'. injection Hv' as <-.
      apply (acquire_present c wm v Hvm Ht).
Qed.

Lemma C4_witness :
  __new__ (CfgDict Sample.debug_override) Sample.w1 =
    (Ok tt,
     with_shared (fun _ => merged (shared Sample.w1) Sample.debug_override)
       Sample.w1) ∧
  List.map h_level
    (handlers (snd (__new__ (CfgDict Sample.debug_override) Sample.w1))) =
    [Level.INFO; Level.INFO] ∧
  __new__ (CfgDict Sample.debug_override) Sample.w0 =
    (Ok tt,
     constructed
       (with_shared (fun _ => merged (shared Sample.w0) Sample.debug_override)
          Sample.w0)
       Level.DEBUG Sample.log_file (VStr "LeanPython")).
Proof.
  pose proof (C4_configuration_overrides Sample.w1 Sample.debug_override
                eq_refl) as (_ & _ & Hafter).
  pose proof (C4_configuration_overrides Sample.w0 Sample.debug_override
                eq_refl) as (_ & Hbefore & _).
  destruct Hafter as (Hnew & _ & Hh & _).
  { exists (VLogger 0). split; vm_compute; reflexivity. }
  split; [exact Hnew |]. split.
  - rewrite Hnew. cbn [snd]. rewrite Hh. vm_compute. reflexivity.
  - apply Hbefore.
    + exists VNone. split; vm_compute; reflexivity.
    + exists (VStr "DEBUG"), (VPath ["/"; "proj"; "logs"]),
        (VPath ["LeanPython.log"]).
      repeat split; try (vm_compute; reflexivity).
      apply not_elem_of_nil.
Defined.

(** A mapping that binds the logger reference to a false value is no
    configuration override: [__new__] then runs the construction again.
    With a level that names nothing the call raises; with a valid one a
    second logger with handlers of its own is built and stored. *)
Lemma main_logger_reset_constructs_again :
  logger_present Sample.w1 ∧
  fst (__new__ Sample.reset_override Sample.w1) = Raise ValueError ∧
  fst (get_logger Sample.w1) = Ok (VLogger 0) ∧
  fst (get_logger (snd (__new__ Sample.rebuild_override Sample.w1)))
    = Ok (VLogger 1) ∧
  List.map h_level (handlers Sample.w1) = [Level.INFO; Level.INFO] ∧
  List.map h_level (handlers (snd (__new__ Sample.rebuild_override Sample.w1)))
    = [Level.INFO; Level.INFO; Level.DEBUG; Level.DEBUG].
Proof.
  split; [| repeat split; vm_compute; reflexivity].
  exists (VLogger 0). split; vm_compute; reflexivity.
Qed.

Lemma C3_witness :
  acquire_all [GetLogger; GetAdapter (CtxStr "worker"); GetLogger] Sample.w0 =
  (Ok [ALogger (VLogger 0);
       AAdapter {| ad_logger := VLogger 0; ad_extra := CtxStr "worker" |};
       ALogger (VLogger 0)],
   constructed Sample.w0 Level.INFO Sample.log_file (VStr "LeanPython")).
Proof.
  apply (proj1 (proj2 (C3_acquisition_idempotent Sample.w0 GetLogger
           [GetAdapter (CtxStr "worker"); GetLogger]
           Level.INFO Sample.log_file (VStr "LeanPython")
           ltac:(exists VNone; split; vm_compute; reflexivity)
           ltac:(exists (VInt 20), (VPath ["/"; "proj"; "logs"]),
                   (VPath ["LeanPython.log"]);
                 repeat split; try (vm_compute; reflexivity);
                 apply not_elem_of_nil)))).
Defined.

Lemma C5_witness :
  ∃ e, (e = ValueError ∨ e = TypeError) ∧
       acquire GetLogger Sample.w_bad = (Raise e, Sample.w_bad).
Proof.
  destruct (C5_invalid_level_fails_fast Sample.w_bad GetLogger (VStr "LOUD"))
    as (e & He & Ha & _).
  - exists VNone. split; vm_compute; reflexivity.
  - vm_compute. reflexivity.
  - vm_compute. reflexivity.
  - exists e. auto.
Defined.

(** ** Acquisition calls of several threads *)

Lemma step_check (c : acquisition) (w : world) (v : pyval) :
  shared w !! "main_logger" = Some v →
  thread_step {| th_call := c; th_pc := PCheck |} w =
  ({| th_call := c; th_pc := if truthy v then PReturn else PConfig |}, w).
Proof.
  intros H. unfold thread_step, shared_get. cbn [th_pc th_call].
  rewrite H. reflexivity.
Qed.

Lemma step_check_none (c : acquisition) (w : world) :
  shared w !! "main_logger" = None →
  thread_step {| th_call := c; th_pc := PCheck |} w =
  (done c (Raise KeyError), w).
Proof.
  intros H. unfold thread_step, shared_get. cbn [th_pc th_call].
  rewrite H. reflexivity.
Qed.

Lemma step_config (c : acquisition) (w w' : world) (r : outcome unit) :
  _config_logger w = (r, w') →
  thread_step {| th_call := c; th_pc := PConfig |} w =
  (match r with
   | Ok _ => {| th_call := c; th_pc := PReturn |}
   | Raise e => done c (Raise e)
   end, w').
Proof.
  intros H. unfold thread_step. cbn [th_pc th_call].
  rewrite H. destruct r; reflexivity.
Qed.

Lemma step_return (c : acquisition) (w : world) (v : pyval) :
  shared w !! "main_logger" = Some v →
  thread_step {| th_call := c; th_pc := PReturn |} w =
  (done c (Ok (finish c v)), w).
Proof.
  intros H. unfold thread_step, shared_get. cbn [th_pc th_call].
  rewrite H. reflexivity.
Qed.

Lemma step_return_none (c : acquisition) (w : world) :
  shared w !! "main_logger" = None →
  thread_step {| th_call := c; th_pc := PReturn |} w =
  (done c (Raise KeyError), w).
Proof.
  intros H. unfold thread_step, shared_get. cbn [th_pc th_call].
  rewrite H. reflexivity.
Qed.

Lemma step_done (c : acquisition) (r : outcome acquired) (w : world) :
  thread_step (done c r) w = (done c r, w).
Proof. reflexivity. Qed.

(** [get_logger] and [get_adapter] are the test, the construction when the
    test finds no logger, and the read of the reference. *)
Lemma acquire_unfold (c : acquisition) (w : world) :
  acquire c w =
  match ensure_logger w with
  | (Ok _, w1) =>
      match shared w1 !! "main_logger" with
      | Some v => (Ok (finish c v), w1)
      | None => (Raise KeyError, w1)
      end
  | (Raise e, w1) => (Raise e, w1)
  end.
Proof.
  destruct c; unfold acquire, get_logger, get_adapter, mbind, M_bind, shared_get;
    destruct (ensure_logger w) as [[[]|e] w1]; try reflexivity;
    destruct (shared w1 !! "main_logger"); reflexivity.
Qed.

Lemma ensure_logger_unfold (w : world) :
  ensure_logger w =
  match shared w !! "main_logger" with
  | Some v => if truthy v then (Ok tt, w) else _config_logger w
  | None => (Raise KeyError, w)
  end.
Proof.
  unfold ensure_logger, mbind, M_bind, shared_get.
  destruct (shared w !! "main_logger") as [v|]; [| reflexivity].
  destruct (truthy v); reflexivity.
Qed.

(** A thread left alone runs its acquisition call. *)
Lemma thread_alone (c : acquisition) (w : world) :
  let s1 := thread_step {| th_call := c; th_pc := PCheck |} w in
  let s2 := thread_step (fst s1) (snd s1) in
  let s3 := thread_step (fst s2) (snd s2) in
  s3 = (done c (fst (acquire c w)), snd (acquire c w)).
Proof.
  cbn zeta. rewrite acquire_unfold, ensure_logger_unfold.
  destruct (shared w !! "main_logger") as [v|] eqn:Hv.
  2:{ rewrite (step_check_none c w Hv). cbn [fst snd].
      rewrite !step_done. reflexivity. }
  rewrite (step_check c w v Hv). cbn [fst snd].
  destruct (truthy v).
  - rewrite (step_return c w v Hv). cbn [fst snd]. rewrite Hv, step_done.
    reflexivity.
  - destruct (_config_logger w) as [[[]|e] w1] eqn:Hc.
    + rewrite (step_config c w w1 _ Hc). cbn [fst snd].
      destruct (shared w1 !! "main_logger") as [v'|] eqn:Hv'.
      * rewrite (step_return c w1 v' Hv'). reflexivity.
      * rewrite (step_return_none c w1 Hv'). reflexivity.
    + rewrite (step_config c w w1 _ Hc). cbn [fst snd].
      rewrite !step_done. reflexivity.
Qed.

Lemma pending_insert (ts : list thread) (i : nat) (t t' : thread) :
  ts !! i = Some t →
  (pending (<[i := t']> ts) + (if is_pending t then 1 else 0) =
   pending ts + (if is_pending t' then 1 else 0))%nat.
Proof.
  intros H.
  pose proof (take_drop_middle ts i t H) as E.
  rewrite (insert_take_drop ts i t') by (eapply lookup_lt_Some, H).
  rewrite <- E at 3. unfold pending.
  rewrite !List.filter_app, !length_app. cbn [List.filter].
  destruct (is_pending t), (is_pending t'); cbn [List.length]; lia.
Qed.

Lemma can_construct_constructed (w : world) (lv lv' : Z) (p p' : list string)
    (nm nm' : pyval) :
  can_construct w lv p nm → can_construct (constructed w lv' p' nm') lv p nm.
Proof.
  intros (rl & d & f & Hrl & Hlv & Hd & Hf & Hdiv & Hden & Hnm).
  exists rl, d, f. unfold constructed. cbn [shared denied].
  rewrite !lookup_insert_ne by discriminate. auto 10.
Qed.

Lemma one_pair_constructed (w : world) (v : pyval) (lv lv' : Z)
    (p p' : list string) (nm nm' : pyval) :
  one_pair w v lv p nm → one_pair (constructed w lv' p' nm') v lv p nm.
Proof.
  intros (id & hc & hf & -> & Hl & Hne & Hc & Hf).
  exists id, hc, hf. unfold constructed. cbn [loggers handlers].
  split; [reflexivity |]. split; [| split; [exact Hne | split]];
    apply lookup_app_l_Some; assumption.
Qed.

Lemma thread_ok_mono (n m : nat) (t : thread) :
  (n ≤ m)%nat → thread_ok n t → thread_ok m t.
Proof.
  unfold thread_ok. destruct (th_pc t); auto.
  intros Hle (id & Hr & Hlt). exists id. split; [exact Hr | lia].
Qed.

Lemma sched_step_at (ts : list thread) (w : world) (i : nat) (t : thread) :
  ts !! i = Some t →
  sched_step (ts, w) i =
  (<[i := fst (thread_step t w)]> ts, snd (thread_step t w)).
Proof.
  intros H. unfold sched_step. cbn [fst snd]. rewrite H.
  destruct (thread_step t w). reflexivity.
Qed.

Lemma sched_step_idle (ts : list thread) (w : world) (i : nat) :
  ts !! i = None → sched_step (ts, w) i = (ts, w).
Proof. intros H. unfold sched_step. cbn [fst snd]. rewrite H. reflexivity. Qed.

(** Every step of every thread keeps the invariant. *)
Lemma race_inv_step (K : nat) (lv : Z) (p : list string) (nm : pyval)
    (ts : list thread) (w : world) (i : nat) :
  race_inv K lv p nm ts w →
  race_inv K lv p nm (fst (sched_step (ts, w) i)) (snd (sched_step (ts, w) i)).
Proof.
  intros I. destruct (ts !! i) as [t|] eqn:Hi.
  2:{ rewrite (sched_step_idle ts w i Hi). exact I. }
  rewrite (sched_step_at ts w i t Hi). cbn [fst snd].
  destruct I as [Hlen Hcc Href Hpairs Hhs Hcount Hdone].
  destruct t as [c [| | |r]].
  - (* the test of the reference *)
    assert (Hv : ∃ v, shared w !! "main_logger" = Some v ∧
                      (truthy v = false ∨
                       ∃ id, v = VLogger id ∧ (id < List.length (loggers w))%nat)).
    { destruct Href as [((v & Hv & Ht) & _) | (id & Hv & Hlt)]; eauto 10. }
    destruct Hv as (v & Hv & Hcase).
    rewrite (step_check c w v Hv). cbn [fst snd].
    pose proof (pending_insert ts i _
                  {| th_call := c; th_pc := if truthy v then PReturn else PConfig |}
                  Hi) as Hp.
    cbn [is_pending th_pc] in Hp.
    split.
    + rewrite length_insert. exact Hlen.
    + exact Hcc.
    + destruct Href as [(Ha & Hl & Hall) | Hr]; [left | right; exact Hr].
      split; [exact Ha |]. split; [exact Hl |].
      apply Forall_insert; [exact Hall |].
      destruct Ha as (v' & Hv' & Ht'). rewrite Hv in Hv'. injection Hv' as <-.
      cbn [is_pending th_pc]. rewrite Ht'. reflexivity.
    + exact Hpairs.
    + exact Hhs.
    + destruct (truthy v); cbn [is_pending th_pc] in Hp; lia.
    + apply Forall_insert; [exact Hdone |].
      unfold thread_ok. cbn [th_pc]. destruct (truthy v); exact I.
  - (* the construction *)
    rewrite (step_config c w _ _ (_config_logger_ok w lv p nm Hcc)).
    cbn [fst snd].
    pose proof (pending_insert ts i _ {| th_call := c; th_pc := PReturn |} Hi)
      as Hp.
    cbn [is_pending th_pc] in Hp.
    assert (Hn : List.length (loggers (constructed w lv p nm)) =
                 S (List.length (loggers w))).
    { unfold constructed. cbn [loggers]. rewrite length_app. cbn. lia. }
    split.
    + rewrite length_insert. exact Hlen.
    + apply can_construct_constructed, Hcc.
    + right. exists (List.length (loggers w)).
      split; [apply constructed_main_logger | lia].
    + intros id Hid. rewrite Hn in Hid.
      destruct (decide (id = List.length (loggers w))) as [->|Hne].
      * apply constructed_one_pair.
      * apply one_pair_constructed, Hpairs. lia.
    + rewrite Hn. unfold constructed. cbn [handlers].
      rewrite length_app. cbn [List.length]. lia.
    + rewrite Hn. lia.
    + rewrite Hn. apply Forall_insert.
      * eapply Forall_impl; [exact Hdone |].
        intros t. apply thread_ok_mono. lia.
      * exact I.
  - (* the read of the reference *)
    destruct Href as [(_ & _ & Hall) | (id & Hv & Hlt)].
    { pose proof (Forall_lookup_1 _ _ _ _ Hall Hi) as Hpend.
      discriminate Hpend. }
    rewrite (step_return c w _ Hv). cbn [fst snd].
    pose proof (pending_insert ts i _ (done c (Ok (finish c (VLogger id)))) Hi)
      as Hp.
    cbn [is_pending th_pc done] in Hp.
    split.
    + rewrite length_insert. exact Hlen.
    + exact Hcc.
    + right. eauto.
    + exact Hpairs.
    + exact Hhs.
    + lia.
    + apply Forall_insert; [exact Hdone |].
      unfold thread_ok, done. cbn [th_pc th_call]. eauto.
  - (* done *)
    change {| th_call := c; th_pc := PDone r |} with (done c r) in *.
    rewrite step_done. cbn [fst snd].
    rewrite (list_insert_id ts i _ Hi).
    split; assumption.
Qed.

Lemma race_inv_run (K : nat) (lv : Z) (p : list string) (nm : pyval)
    (sched : list nat) (ts : list thread) (w : world) :
  race_inv K lv p nm ts w →
  race_inv K lv p nm (fst (run_schedule sched (ts, w)))
    (snd (run_schedule sched (ts, w))).
Proof.
  revert ts w. induction sched as [|i sched IH]; intros ts w I; [exact I |].
  unfold run_schedule in *. cbn [foldl].
  pose proof (race_inv_step K lv p nm ts w i I) as I'.
  destruct (sched_step (ts, w) i) as [ts' w']. apply IH, I'.
Qed.

Lemma pending_start (calls : list acquisition) :
  pending (start calls) = List.length calls.
Proof.
  unfold pending, start. induction calls as [|c calls IH]; [reflexivity |].
  cbn. rewrite IH. reflexivity.
Qed.

Lemma race_inv_start (calls : list acquisition) (w : world) (lv : Z)
    (p : list string) (nm : pyval) :
  logger_absent w → can_construct w lv p nm →
  loggers w = [] → handlers w = [] →
  race_inv (List.length calls) lv p nm (start calls) w.
Proof.
  intros Ha Hc Hl Hh. split.
  - unfold start. apply length_map.
  - exact Hc.
  - left. split; [exact Ha |]. split; [exact Hl |].
    unfold start. apply Forall_forall. intros t Ht.
    apply list_elem_of_In, in_map_iff in Ht as (c & <- & _). reflexivity.
  - intros id Hid. rewrite Hl in Hid. cbn in Hid. lia.
  - rewrite Hl, Hh. reflexivity.
  - rewrite Hl, pending_start. cbn. lia.
  - unfold start. apply Forall_forall. intros t Ht.
    apply list_elem_of_In, in_map_iff in Ht as (c & <- & _). exact I.
Qed.

Lemma run_schedule_cons3 (k : nat) (rest : list nat) (st : list thread * world) :
  run_schedule (k :: k :: k :: rest) st =
  run_schedule rest (sched_step (sched_step (sched_step st k) k) k).
Proof. reflexivity. Qed.

(** A thread that runs alone after the construction takes the logger of the
    shared state and changes nothing. *)
Lemma run_thread_present (ts : list thread) (w : world) (k : nat)
    (c : acquisition) (v : pyval) :
  shared w !! "main_logger" = Some v → truthy v = true →
  ts !! k = Some {| th_call := c; th_pc := PCheck |} →
  sched_step (sched_step (sched_step (ts, w) k) k) k =
  (<[k := done c (Ok (finish c v))]> ts, w).
Proof.
  intros Hv Ht Hk.
  pose proof (lookup_lt_Some _ _ _ Hk) as Hlt.
  rewrite (sched_step_at ts w k _ Hk), (step_check c w v Hv), Ht. cbn [fst snd].
  rewrite (sched_step_at _ w k {| th_call := c; th_pc := PReturn |})
    by (apply list_lookup_insert_eq, Hlt).
  rewrite (step_return c w v Hv). cbn [fst snd]. rewrite list_insert_insert_eq.
  rewrite (sched_step_at _ w k (done c (Ok (finish c v))))
    by (apply list_lookup_insert_eq, Hlt).
  rewrite step_done. cbn [fst snd]. rewrite list_insert_insert_eq. reflexivity.
Qed.

(** The first thread that runs alone constructs the logger. *)
Lemma run_thread_absent (ts : list thread) (w : world) (k : nat)
    (c : acquisition) (lv : Z) (p : list string) (nm : pyval) :
  logger_absent w → can_construct w lv p nm →
  ts !! k = Some {| th_call := c; th_pc := PCheck |} →
  sched_step (sched_step (sched_step (ts, w) k) k) k =
  (<[k := done c (Ok (finish c (VLogger (List.length (loggers w)))))]> ts,
   constructed w lv p nm).
Proof.
  intros (v & Hv & Ht) Hc Hk.
  pose proof (lookup_lt_Some _ _ _ Hk) as Hlt.
  rewrite (sched_step_at ts w k _ Hk), (step_check c w v Hv), Ht. cbn [fst snd].
  rewrite (sched_step_at _ w k {| th_call := c; th_pc := PConfig |})
    by (apply list_lookup_insert_eq, Hlt).
  rewrite (step_config c w _ _ (_config_logger_ok w lv p nm Hc)).
  cbn [fst snd]. rewrite list_insert_insert_eq.
  rewrite (sched_step_at _ _ k {| th_call := c; th_pc := PReturn |})
    by (apply list_lookup_insert_eq, Hlt).
  rewrite (step_return c _ _ (constructed_main_logger w lv p nm)).
  cbn [fst snd]. rewrite list_insert_insert_eq. reflexivity.
Qed.

Lemma insert_middle (pre post : list thread) (t t' : thread) :
  <[List.length pre := t']> (pre ++ t :: post)%list = (pre ++ t' :: post)%list.
Proof.
  rewrite insert_app_r_alt by lia. rewrite Nat.sub_diag. reflexivity.
Qed.

Lemma sequential_present (calls : list acquisition) (pre : list thread)
    (w : world) (v : pyval) :
  shared w !! "main_logger" = Some v → truthy v = true →
  run_schedule (sequential (List.length pre) (List.length calls))
    (pre ++ start calls, w)%list =
  ((pre ++ List.map (fun c => done c (Ok (finish c v))) calls)%list, w).
Proof.
  intros Hv Ht. revert pre.
  induction calls as [|c calls IH]; intros pre; [reflexivity |].
  cbn [List.length sequential start List.map]. rewrite run_schedule_cons3.
  rewrite (run_thread_present _ w _ c v Hv Ht)
    by (apply list_lookup_middle; reflexivity).
  rewrite insert_middle.
  specialize (IH (pre ++ [done c (Ok (finish c v))])%list).
  rewrite length_app, Nat.add_1_r, <- !app_assoc in IH. exact IH.
Qed.

(** When the calls do not interleave, the first one constructs and all get
    that logger. *)
Lemma sequential_run (c : acquisition) (calls : list acquisition) (w : world)
    (lv : Z) (p : list string) (nm : pyval) :
  logger_absent w → can_construct w lv p nm →
  run_schedule (sequential 0 (S (List.length calls))) (start (c :: calls), w) =
  (List.map (fun c => done c (Ok (finish c (VLogger (List.length (loggers w))))))
     (c :: calls),
   constructed w lv p nm).
Proof.
  intros Ha Hc. cbn [sequential start List.map]. rewrite run_schedule_cons3.
  rewrite (run_thread_absent _ w 0 c lv p nm Ha Hc) by reflexivity.
  cbn [insert list_insert].
  apply (sequential_present calls
           [done c (Ok (finish c (VLogger (List.length (loggers w)))))]
           (constructed w lv p nm) _
           (constructed_main_logger w lv p nm) eq_refl).
Qed.

(** Two threads that both test the logger reference before either
    constructs: both construct. *)
Lemma race_two_threads (w : world) (c1 c2 : acquisition) (lv : Z)
    (p : list string) (nm : pyval) :
  logger_absent w → can_construct w lv p nm →
  run_schedule Sample.racy_schedule (start [c1; c2], w) =
  ([done c1 (Ok (finish c1 (VLogger (List.length (loggers w)))));
    done c2 (Ok (finish c2 (VLogger (S (List.length (loggers w))))))],
   constructed (constructed w lv p nm) lv p nm).
Proof.
  intros (v & Hv & Ht) Hc.
  pose proof (can_construct_constructed w lv lv p p nm nm Hc) as Hc1.
  set (w1 := constructed w lv p nm) in *.
  unfold run_schedule, Sample.racy_schedule, start. cbn [foldl List.map].
  erewrite (sched_step_at _ w 0) by reflexivity.
  rewrite (step_check c1 w v Hv), Ht.
  cbn [fst snd insert list_insert].
  erewrite (sched_step_at _ w 1) by reflexivity.
  rewrite (step_check c2 w v Hv), Ht.
  cbn [fst snd insert list_insert].
  erewrite (sched_step_at _ w 0) by reflexivity.
  rewrite (step_config c1 w _ _ (_config_logger_ok w lv p nm Hc)).
  cbn [fst snd insert list_insert]. fold w1.
  erewrite (sched_step_at _ w1 0) by reflexivity.
  rewrite (step_return c1 w1 _ (constructed_main_logger w lv p nm)).
  cbn [fst snd insert list_insert].
  erewrite (sched_step_at _ w1 1) by reflexivity.
  rewrite (step_config c2 w1 _ _ (_config_logger_ok w1 lv p nm Hc1)).
  cbn [fst snd insert list_insert].
  erewrite (sched_step_at _ _ 1) by reflexivity.
  rewrite (step_return c2 _ _ (constructed_main_logger w1 lv p nm)).
  cbn [fst snd insert list_insert].
  replace (List.length (loggers w1)) with (S (List.length (loggers w)));
    [reflexivity |].
  unfold w1, constructed. cbn [loggers].
  rewrite length_app. cbn [List.length]. lia.
Qed.

(** C9 does not hold of the code, which takes no lock: when two threads
    start their first acquisition in a process without a logger and both
    test the logger reference before either constructs, both run the
    construction.  Two loggers and two pairs of handlers are created, the
    log file is opened twice, and the two threads end up with different
    loggers, each with a pair of handlers of its own. *)
Theorem C9_race_builds_two_loggers
    (w : world) (c1 c2 : acquisition) (lv : Z) (p : list string) (nm : pyval) :
  logger_absent w → can_construct w lv p nm →
  loggers w = [] → handlers w = [] →
  let st := run_schedule Sample.racy_schedule (start [c1; c2], w) in
  fst st = [done c1 (Ok (finish c1 (VLogger 0)));
            done c2 (Ok (finish c2 (VLogger 1)))] ∧
  snd st = constructed (constructed w lv p nm) lv p nm ∧
  List.length (loggers (snd st)) = 2%nat ∧
  List.map h_sink (handlers (snd st)) = [File p; Console; File p; Console] ∧
  opened (snd st) = (opened w ++ [p; p])%list ∧
  one_pair (snd st) (VLogger 0) lv p nm ∧
  one_pair (snd st) (VLogger 1) lv p nm.
Proof.
  intros Ha Hc Hl Hh st.
  assert (Hst : st = ([done c1 (Ok (finish c1 (VLogger 0)));
                       done c2 (Ok (finish c2 (VLogger 1)))],
                      constructed (constructed w lv p nm) lv p nm)).
  { unfold st. rewrite (race_two_threads w c1 c2 lv p nm Ha Hc), Hl.
    reflexivity. }
  rewrite Hst. cbn [fst snd].
  split; [reflexivity |]. split; [reflexivity |].
  split; [unfold constructed; cbn [loggers]; rewrite Hl; reflexivity |].
  split; [unfold constructed; cbn [handlers]; rewrite Hh; reflexivity |].
  split; [unfold constructed; cbn [opened]; rewrite <- app_assoc; reflexivity |].
  split.
  - apply one_pair_constructed.
    pose proof (constructed_one_pair w lv p nm) as H. rewrite Hl in H. exact H.
  - pose proof (constructed_one_pair (constructed w lv p nm) lv p nm) as H.
    unfold constructed at 3 in H. cbn [loggers] in H. rewrite Hl in H. exact H.
Qed.

Lemma C9_witness :
  let st := run_schedule Sample.racy_schedule (Sample.two_threads, Sample.w0) in
  fst st = [done GetLogger (Ok (ALogger (VLogger 0)));
            done GetLogger (Ok (ALogger (VLogger 1)))] ∧
  List.length (loggers (snd st)) = 2%nat ∧
  List.map h_sink (handlers (snd st)) =
    [File Sample.log_file; Console; File Sample.log_file; Console] ∧
  opened (snd st) = [Sample.log_file; Sample.log_file].
Proof.
  pose proof (C9_race_builds_two_loggers Sample.w0 GetLogger GetLogger
                Level.INFO Sample.log_file (VStr "LeanPython")
                ltac:(exists VNone; split; vm_compute; reflexivity)
                ltac:(exists (VInt 20), (VPath ["/"; "proj"; "logs"]),
                        (VPath ["LeanPython.log"]);
                      repeat split; try (vm_compute; reflexivity);
                      apply not_elem_of_nil)
                eq_refl eq_refl) as (H1 & _ & H3 & H4 & H5 & _).
  cbn zeta. split; [exact H1 |]. split; [exact H3 |]. split; [exact H4 |].
  exact H5.
Defined.

(** How far the missing lock goes.  For [K] threads that start their
    acquisition calls without a logger, under every schedule: at most [K]
    constructions run; each builds a fresh logger with exactly one console
    handler and one file handler, so a message sent through any of these
    loggers is written once to the console and once to the file; every
    thread that is done holds one of these loggers.  When the threads run
    one after another, one construction runs and all threads hold that
    logger.  A thread that runs alone does what the acquisition call
    does. *)
Lemma threads_without_lock
    (w : world) (calls : list acquisition) (lv : Z) (p : list string)
    (nm : pyval) :
  logger_absent w → can_construct w lv p nm →
  loggers w = [] → handlers w = [] →
  (∀ sched,
     let st := run_schedule sched (start calls, w) in
     (List.length (loggers (snd st)) ≤ List.length calls)%nat ∧
     List.length (handlers (snd st)) = (2 * List.length (loggers (snd st)))%nat ∧
     (∀ id, (id < List.length (loggers (snd st)))%nat →
            one_pair (snd st) (VLogger id) lv p nm ∧
            ∀ ROOT_DIR active level msg,
              (0 < level)%Z → (lv ≤ level)%Z →
              Logger_log ROOT_DIR active (VLogger id) level msg no_kwargs (snd st) =
              (Ok tt, with_output (fun o => o ++ both_lines p level msg)%list
                        (snd st))) ∧
     Forall (thread_ok (List.length (loggers (snd st)))) (fst st)) ∧
  (∀ c rest, calls = c :: rest →
     run_schedule (sequential 0 (List.length calls)) (start calls, w) =
     (List.map (fun c => done c (Ok (finish c (VLogger 0)))) calls,
      constructed w lv p nm) ∧
     List.length (loggers (constructed w lv p nm)) = 1%nat) ∧
  (∀ c w0,
     let s1 := thread_step {| th_call := c; th_pc := PCheck |} w0 in
     let s2 := thread_step (fst s1) (snd s1) in
     let s3 := thread_step (fst s2) (snd s2) in
     s3 = (done c (fst (acquire c w0)), snd (acquire c w0))).
Proof.
  intros Ha Hc Hl Hh. split; [| split].
  - intros sched st.
    pose proof (race_inv_run _ lv p nm sched _ w
                  (race_inv_start calls w lv p nm Ha Hc Hl Hh)) as I.
    fold st in I. destruct I as [Hlen Hcc Href Hpairs Hhs Hcount Hdone].
    split; [lia |]. split; [exact Hhs |]. split; [| exact Hdone].
    intros id Hid. split; [apply Hpairs, Hid |].
    intros ROOT_DIR active level msg Hpos Hle.
    apply (one_pair_emits_once ROOT_DIR active (snd st) (VLogger id) lv p nm);
      [apply Hpairs, Hid | exact Hpos | exact Hle].
  - intros c rest ->. cbn [List.length].
    rewrite (sequential_run c rest w lv p nm Ha Hc), Hl.
    split; [reflexivity |].
    unfold constructed. cbn [loggers]. rewrite Hl. reflexivity.
  - intros c w0. apply thread_alone.
Qed.

(** * Further properties *)

(** ** Command-line parameters *)

Lemma list_index_first (x : string) (pre post : list string) :
  x ∉ pre → Argv.list_index x (pre ++ x :: post)%list = Ok (List.length pre).
Proof.
  induction pre as [|y pre IH]; intros Hx; cbn.
  - rewrite String.eqb_refl. reflexivity.
  - apply not_elem_of_cons in Hx as [Hne Hx].
    destruct (String.eqb_spec y x) as [->|_]; [congruence |].
    rewrite (IH Hx). reflexivity.
Qed.

Lemma py_int_raises (s : string) (e : exn) :
  Argv.py_int s = Raise e → e = ValueError.
Proof.
  unfold Argv.py_int.
  destruct (match Argv.strip s with
            | String "-" r => (true, r)
            | String "+" r => (false, r)
            | _ => (false, Argv.strip s)
            end) as [neg body].
  destruct (Argv.digits_value 0 false body); [| congruence].
  destruct (Argv.int_max_str_digits <? Argv.count_digits body)%nat; congruence.
Qed.

Lemma read_next_argument_at (pre post : list string) (arg v : string) :
  arg ∉ pre →
  Argv.read_next_argument (pre ++ arg :: v :: post)%list arg =
  match Argv.py_int v with
  | Ok n => Ok (Some n)
  | Raise _ => Raise ValueError
  end.
Proof.
  intros Hx. unfold Argv.read_next_argument.
  rewrite bool_decide_eq_true_2 by (apply elem_of_app; right; left).
  cbn [negb]. rewrite (list_index_first arg pre (v :: post) Hx). cbn [mbind outcome_bind].
  unfold py_index.
  replace ((pre ++ arg :: v :: post)%list !! (List.length pre + 1)%nat) with (Some v).
  2:{ symmetry. rewrite lookup_app_r by lia.
      replace (List.length pre + 1 - List.length pre)%nat with 1%nat by lia.
      reflexivity. }
  cbn [mbind outcome_bind].
  destruct (Argv.py_int v) as [n|e] eqn:E; [reflexivity |].
  rewrite (py_int_raises v e E). reflexivity.
Qed.

(** ** [int] reads back what [str] prints *)

Ltac eval_digit :=
  match goal with
  | |- context [Argv.is_digit ?c] =>
      change (Argv.is_digit c) with true; cbn iota
  end;
  match goal with
  | |- context [Argv.digit_value ?c] =>
      let v := eval vm_compute in (Argv.digit_value c) in
      change (Argv.digit_value c) with v
  end.

Lemma digits_value_acc (d : Decimal.uint) (acc : positive) :
  Argv.digits_value (Z.pos acc) true (NilEmpty.string_of_uint d) =
  Some (Z.pos (Pos.of_uint_acc d acc)).
Proof.
  revert acc.
  induction d; intros acc;
    cbn [NilEmpty.string_of_uint Pos.of_uint_acc Argv.digits_value];
    [reflexivity | ..];
    eval_digit; rewrite <- IHd; f_equal; lia.
Qed.

Lemma digits_value_zero (d : Decimal.uint) (seen : bool) :
  seen = true ∨ d ≠ Decimal.Nil →
  Argv.digits_value 0 seen (NilEmpty.string_of_uint d) =
  Some (Z.of_N (Pos.of_uint d)).
Proof.
  revert seen. induction d; intros seen Hs;
    cbn [NilEmpty.string_of_uint Pos.of_uint Argv.digits_value].
  - destruct Hs as [-> | H]; [reflexivity | congruence].
  - eval_digit. apply IHd. auto.
  - eval_digit. apply (digits_value_acc d 1).
  - eval_digit. apply (digits_value_acc d 2).
  - eval_digit. apply (digits_value_acc d 3).
  - eval_digit. apply (digits_value_acc d 4).
  - eval_digit. apply (digits_value_acc d 5).
  - eval_digit. apply (digits_value_acc d 6).
  - eval_digit. apply (digits_value_acc d 7).
  - eval_digit. apply (digits_value_acc d 8).
  - eval_digit. apply (digits_value_acc d 9).
Qed.

Lemma digit_not_space (c : ascii) :
  Argv.is_digit c = true → Argv.is_space c = false.
Proof.
  destruct c as [[] [] [] [] [] [] [] []]; vm_compute; congruence.
Qed.

Lemma count_digits_le (s : string) :
  (Argv.count_digits s ≤ String.length s)%nat.
Proof.
  induction s as [|c r IH]; cbn; [lia |].
  destruct (Argv.is_digit c); lia.
Qed.

Lemma count_digits_uint (d : Decimal.uint) :
  Argv.count_digits (NilEmpty.string_of_uint d) =
  String.length (NilEmpty.string_of_uint d).
Proof.
  induction d; cbn [NilEmpty.string_of_uint Argv.count_digits String.length];
    [reflexivity | ..];
    match goal with
    | |- context [Argv.is_digit ?c] =>
        change (Argv.is_digit c) with true; cbn iota
    end; rewrite IHd; reflexivity.
Qed.

(** A string of digits has nothing to strip. *)
Lemma strip_digits (s : string) :
  Argv.count_digits s = String.length s → Argv.strip s = s.
Proof.
  intros H. unfold Argv.strip.
  assert (Hl : Argv.lstrip s = s).
  { destruct s as [|c r]; [reflexivity |]. cbn in *.
    destruct (Argv.is_digit c) eqn:Hc.
    - rewrite (digit_not_space c Hc). reflexivity.
    - pose proof (count_digits_le r). lia. }
  rewrite Hl. clear Hl.
  induction s as [|c r IH]; [reflexivity |].
  cbn in H. destruct (Argv.is_digit c) eqn:Hc.
  2:{ pose proof (count_digits_le r). lia. }
  cbn [Argv.rstrip]. rewrite IH by lia.
  rewrite (digit_not_space c Hc). destruct r; reflexivity.
Qed.

Lemma py_int_uint (d : Decimal.uint) :
  d ≠ Decimal.Nil →
  (String.length (NilEmpty.string_of_uint d) ≤ Argv.int_max_str_digits)%nat →
  Argv.py_int (NilEmpty.string_of_uint d) = Ok (Z.of_N (Pos.of_uint d)).
Proof.
  intros Hd Hlen. unfold Argv.py_int.
  rewrite (strip_digits _ (count_digits_uint d)).
  assert (Hbody :
    match NilEmpty.string_of_uint d with
    | String "-" r => (true, r)
    | String "+" r => (false, r)
    | _ => (false, NilEmpty.string_of_uint d)
    end = (false, NilEmpty.string_of_uint d)).
  { destruct d; reflexivity. }
  rewrite Hbody, (digits_value_zero d false) by auto.
  rewrite count_digits_uint.
  destruct (Nat.ltb_spec Argv.int_max_str_digits
              (String.length (NilEmpty.string_of_uint d))); [lia | reflexivity].
Qed.

Lemma py_int_neg_uint (d : Decimal.uint) :
  d ≠ Decimal.Nil →
  (String.length (NilEmpty.string_of_uint d) ≤ Argv.int_max_str_digits)%nat →
  Argv.py_int (String "-" (NilEmpty.string_of_uint d)) =
  Ok (- Z.of_N (Pos.of_uint d))%Z.
Proof.
  intros Hd Hlen. unfold Argv.py_int.
  assert (Hs : Argv.strip (String "-" (NilEmpty.string_of_uint d)) =
               String "-" (NilEmpty.string_of_uint d)).
  { unfold Argv.strip. cbn [Argv.lstrip].
    change (Argv.is_space "-") with false. cbn iota. cbn [Argv.rstrip].
    pose proof (strip_digits _ (count_digits_uint d)) as Hr.
    unfold Argv.strip in Hr.
    assert (Hl : Argv.lstrip (NilEmpty.string_of_uint d) =
                 NilEmpty.string_of_uint d).
    { destruct d; try reflexivity. }
    rewrite Hl in Hr. rewrite Hr.
    destruct d; [congruence | reflexivity ..]. }
  rewrite Hs. cbn iota.
  rewrite (digits_value_zero d false) by auto.
  rewrite count_digits_uint.
  destruct (Nat.ltb_spec Argv.int_max_str_digits
              (String.length (NilEmpty.string_of_uint d))); [lia | reflexivity].
Qed.

Lemma py_int_of_Z (z : Z) :
  (String.length (PyStr.of_Z z) ≤ Argv.int_max_str_digits)%nat →
  Argv.py_int (PyStr.of_Z z) = Ok z.
Proof.
  unfold PyStr.of_Z. destruct z as [|p|p]; cbn [Z.to_int NilZero.string_of_int].
  - intros _. vm_compute. reflexivity.
  - pose proof (DecimalPos.Unsigned.to_uint_nonnil p) as Hn.
    assert (E : NilZero.string_of_uint (Pos.to_uint p) =
                NilEmpty.string_of_uint (Pos.to_uint p)).
    { destruct (Pos.to_uint p); [congruence | reflexivity ..]. }
    rewrite E. intros Hlen.
    rewrite (py_int_uint _ Hn Hlen), DecimalPos.Unsigned.of_to. reflexivity.
  - pose proof (DecimalPos.Unsigned.to_uint_nonnil p) as Hn.
    assert (E : NilZero.string_of_uint (Pos.to_uint p) =
                NilEmpty.string_of_uint (Pos.to_uint p)).
    { destruct (Pos.to_uint p); [congruence | reflexivity ..]. }
    rewrite E. intros Hlen. cbn [String.length] in Hlen.
    rewrite (py_int_neg_uint _ Hn) by lia.
    rewrite DecimalPos.Unsigned.of_to. reflexivity.
Qed.

(** A word is not in a list of words that are all written out. *)
Ltac not_in_list :=
  apply (proj1 (bool_decide_eq_false _)); vm_compute; reflexivity.

Lemma read_next_argument_absent (argv : list string) (arg : string) :
  arg ∉ argv → Argv.read_next_argument argv arg = Ok None.
Proof.
  intros H. unfold Argv.read_next_argument.
  rewrite bool_decide_eq_false_2 by exact H. reflexivity.
Qed.

Lemma read_next_argument_last (pre : list string) (arg : string) :
  arg ∉ pre → Argv.read_next_argument (pre ++ [arg])%list arg = Ok None.
Proof.
  intros Hx. unfold Argv.read_next_argument.
  rewrite bool_decide_eq_true_2 by (apply elem_of_app; right; left).
  cbn [negb]. rewrite (list_index_first arg pre [] Hx).
  cbn [mbind outcome_bind]. unfold py_index.
  rewrite lookup_ge_None_2 by (rewrite length_app; cbn; lia).
  reflexivity.
Qed.

(** X1.  [read_next_argument] gives [None], without an error, when the flag
    is not on the command line and when its first occurrence is the last
    word of the command line. *)
Theorem X1_read_next_argument_none (arg : string) :
  (∀ argv, arg ∉ argv → Argv.read_next_argument argv arg = Ok None) ∧
  (∀ pre, arg ∉ pre →
          Argv.read_next_argument (pre ++ [arg])%list arg = Ok None).
Proof.
  split.
  - intros argv. apply read_next_argument_absent.
  - intros pre. apply read_next_argument_last.
Qed.

Lemma X1_witness :
  Argv.read_next_argument ["example.py"; "-d"] "--somenumber" = Ok None ∧
  Argv.read_next_argument ["example.py"; "--somenumber"] "--somenumber" = Ok None.
Proof.
  split.
  - apply (proj1 (X1_read_next_argument_none "--somenumber")). not_in_list.
  - apply (proj2 (X1_read_next_argument_none "--somenumber") ["example.py"]).
    not_in_list.
Defined.

(** X2.  When the flag is on the command line, the word after its first
    occurrence, a word of ASCII characters, is converted with [int]; a word
    that is no integer raises [ValueError], which [read_next_argument] does
    not catch. *)
Theorem X2_read_next_argument_value
    (pre post : list string) (arg v : string) :
  arg ∉ pre → Argv.is_ascii v = true →
  Argv.read_next_argument (pre ++ arg :: v :: post)%list arg =
  match Argv.py_int v with
  | Ok n => Ok (Some n)
  | Raise _ => Raise ValueError
  end.
Proof.
  intros Hx _. unfold Argv.read_next_argument.
  rewrite bool_decide_eq_true_2 by (apply elem_of_app; right; left).
  cbn [negb]. rewrite (list_index_first arg pre (v :: post) Hx).
  cbn [mbind outcome_bind]. unfold py_index.
  rewrite lookup_app_r by lia.
  replace (List.length pre + 1 - List.length pre)%nat with 1%nat by lia.
  cbn [lookup list_lookup mbind outcome_bind].
  destruct (Argv.py_int v) as [n|e] eqn:E; [reflexivity |].
  rewrite (py_int_raises v e E). reflexivity.
Qed.

Lemma X2_witness :
  Argv.read_next_argument ["example.py"; "--somenumber"; "15"; "-d"]
    "--somenumber" = Ok (Some 15%Z) ∧
  Argv.read_next_argument ["example.py"; "--somenumber"; "many"]
    "--somenumber" = Raise ValueError ∧
  Argv.read_next_argument ["example.py"; "--somenumber"; "--somenumber"; "15"]
    "--somenumber" = Raise ValueError ∧
  Argv.read_next_argument
    ["example.py"; "--somenumber"; String (ascii_of_nat 9) "+1_5 "]
    "--somenumber" = Ok (Some 15%Z) ∧
  Argv.read_next_argument
    ["example.py"; "--somenumber"; String (ascii_of_nat 28) "15"]
    "--somenumber" = Raise ValueError.
Proof.
  split; [| split; [| split; [| split]]].
  - apply (X2_read_next_argument_value ["example.py"] ["-d"] "--somenumber" "15");
      [not_in_list | reflexivity].
  - apply (X2_read_next_argument_value ["example.py"] [] "--somenumber" "many");
      [not_in_list | reflexivity].
  - apply (X2_read_next_argument_value ["example.py"] ["15"] "--somenumber"
             "--somenumber"); [not_in_list | reflexivity].
  - apply (X2_read_next_argument_value ["example.py"] [] "--somenumber"
             (String (ascii_of_nat 9) "+1_5 ")); [not_in_list | reflexivity].
  - apply (X2_read_next_argument_value ["example.py"] [] "--somenumber"
             (String (ascii_of_nat 28) "15")); [not_in_list | reflexivity].
Defined.

Lemma SOME_CMD_unfold (argv : list string) :
  Argv.SOME_CMD_ARG_WITH_PARAM argv =
  match Argv.read_next_argument argv "--somenumber" with
  | Ok x => Ok (Argv.or_default x 10)
  | Raise e => Raise e
  end.
Proof.
  unfold Argv.SOME_CMD_ARG_WITH_PARAM.
  destruct (Argv.read_next_argument argv "--somenumber"); reflexivity.
Qed.

(** X3.  [SOME_CMD_ARG_WITH_PARAM] is never 0: without the flag it is 10,
    and a 0 given on the command line, as a word of ASCII characters that
    [int] reads as 0, is replaced by 10 as well. *)
Theorem X3_parameter_never_zero :
  (∀ argv n, Argv.SOME_CMD_ARG_WITH_PARAM argv = Ok n → n ≠ 0%Z) ∧
  (∀ argv, "--somenumber" ∉ argv → Argv.SOME_CMD_ARG_WITH_PARAM argv = Ok 10%Z) ∧
  (∀ pre v post,
     "--somenumber" ∉ pre → Argv.is_ascii v = true →
     Argv.py_int v = Ok 0%Z →
     Argv.SOME_CMD_ARG_WITH_PARAM (pre ++ "--somenumber" :: v :: post)%list
     = Ok 10%Z).
Proof.
  split; [| split].
  - intros argv n. rewrite SOME_CMD_unfold.
    destruct (Argv.read_next_argument argv "--somenumber") as [[x|]|e];
      cbn [Argv.or_default]; intros H; try discriminate H; injection H as <-.
    + destruct (Z.eqb_spec x 0); lia.
    + lia.
  - intros argv H. rewrite SOME_CMD_unfold, (read_next_argument_absent _ _ H).
    reflexivity.
  - intros pre v post Hpre _ Hv.
    rewrite SOME_CMD_unfold, (read_next_argument_at pre post _ v Hpre), Hv.
    reflexivity.
Qed.

Lemma X3_witness :
  Argv.SOME_CMD_ARG_WITH_PARAM ["example.py"; "--somenumber"; "0"] = Ok 10%Z ∧
  Argv.SOME_CMD_ARG_WITH_PARAM ["example.py"; "-b"] = Ok 10%Z.
Proof.
  split.
  - apply (proj2 (proj2 X3_parameter_never_zero) ["example.py"] "0" []);
      [not_in_list | reflexivity | reflexivity].
  - apply (proj1 (proj2 X3_parameter_never_zero)). not_in_list.
Defined.

(** X4.  [int] reads back what [str] prints: for every integer [z] whose
    decimal text is within the digit limit of the interpreter,
    [int(str(z))] is [z]; so a nonzero [z] written after [--somenumber]
    becomes the value of [SOME_CMD_ARG_WITH_PARAM]. *)
Theorem X4_int_reads_back_str (z : Z) :
  (String.length (PyStr.of_Z z) ≤ Argv.int_max_str_digits)%nat →
  Argv.py_int (PyStr.of_Z z) = Ok z ∧
  (∀ pre post,
     "--somenumber" ∉ pre → z ≠ 0%Z →
     Argv.SOME_CMD_ARG_WITH_PARAM
       (pre ++ "--somenumber" :: PyStr.of_Z z :: post)%list = Ok z).
Proof.
  intros Hlen. pose proof (py_int_of_Z z Hlen) as Hz. split; [exact Hz |].
  intros pre post Hpre Hnz.
  rewrite SOME_CMD_unfold, (read_next_argument_at pre post _ _ Hpre), Hz.
  cbn [Argv.or_default]. destruct (Z.eqb_spec z 0); [contradiction | reflexivity].
Qed.

Lemma X4_witness :
  Argv.py_int (PyStr.of_Z (-2048)) = Ok (-2048)%Z ∧
  Argv.SOME_CMD_ARG_WITH_PARAM ["example.py"; "--somenumber"; "-2048"]
    = Ok (-2048)%Z.
Proof.
  pose proof (X4_int_reads_back_str (-2048)
                ltac:(vm_compute; lia)) as [H1 H2].
  split; [exact H1 |].
  apply (H2 ["example.py"] []); [not_in_list | lia].
Defined.

(** ** The import path *)

Lemma path_in_strings (path : list string) (sys_path : list pyval) :
  forallb SysPath.is_str sys_path = true → SysPath.path_in path sys_path = false.
Proof.
  unfold SysPath.path_in.
  induction sys_path as [|v sp IH]; [reflexivity |].
  cbn [existsb forallb]. intros H. apply andb_true_iff in H as [Hv Hsp].
  rewrite (IH Hsp). destruct v; try discriminate Hv. reflexivity.
Qed.

(** X5.  On a [sys.path] of strings the guard of [project_to_path] never
    holds a path back: the root and the [lib] folder are put in front
    whether or not their text is already there, so a second call puts them
    in front once more. *)
Theorem X5_project_to_path_prepends
    (ROOT_DIR : list string) (sys_path : list pyval) :
  forallb SysPath.is_str sys_path = true →
  let root := VStr (Path.to_str ROOT_DIR) in
  let lib := VStr (Path.to_str (SysPath.LIB_DIR ROOT_DIR)) in
  SysPath.project_to_path ROOT_DIR sys_path = root :: lib :: sys_path ∧
  SysPath.project_to_path ROOT_DIR (SysPath.project_to_path ROOT_DIR sys_path)
    = root :: lib :: root :: lib :: sys_path.
Proof.
  intros H root lib.
  assert (Hone : ∀ sp, forallb SysPath.is_str sp = true →
                       SysPath.project_to_path ROOT_DIR sp = root :: lib :: sp).
  { intros sp Hsp. unfold SysPath.project_to_path, SysPath.PROJECT_PATHS.
    cbn [foldl]. rewrite (path_in_strings _ sp Hsp). cbn [negb].
    rewrite path_in_strings by (cbn; exact Hsp). reflexivity. }
  split; [apply Hone, H |].
  rewrite (Hone sys_path H). apply Hone. cbn. exact H.
Qed.

Lemma X5_witness :
  SysPath.project_to_path ["/"; "proj"] [VStr "/proj"; VStr "/proj/lib"] =
  [VStr "/proj"; VStr "/proj/lib"; VStr "/proj"; VStr "/proj/lib"].
Proof.
  apply (proj1 (X5_project_to_path_prepends ["/"; "proj"]
                  [VStr "/proj"; VStr "/proj/lib"] eq_refl)).
Defined.

(** ** The first logger of a process *)

Lemma initial_lookups (argv : list string) (ROOT_DIR : list string)
    (now : string) :
  let st := _shared_state argv ROOT_DIR now in
  st !! "name" = Some (VStr Config.LOGGERNAME) ∧
  st !! "main_logger" = Some VNone ∧
  st !! "root_level" = Some (VInt (Config.LOG_LEVEL argv)) ∧
  st !! "log_file_path" = Some (VPath (Config.LOG_PATH ROOT_DIR)) ∧
  st !! "log_file_name" =
    Some (VPath (Path.of_str (Config.LOG_FILE argv now +:+ ".log"))).
Proof.
  cbn zeta. unfold _shared_state.
  repeat split;
    repeat (rewrite lookup_insert_ne by discriminate); apply lookup_insert_eq.
Qed.

Lemma initial_absent (argv : list string) (ROOT_DIR : list string)
    (now : string) (no : list (list string)) :
  logger_absent (initial_world argv ROOT_DIR now no).
Proof.
  exists VNone. split; [| reflexivity].
  apply (initial_lookups argv ROOT_DIR now).
Qed.

Lemma initial_can_construct (argv : list string) (ROOT_DIR : list string)
    (now : string) (no : list (list string)) :
  let p := Path.join (Config.LOG_PATH ROOT_DIR)
             (Path.of_str (Config.LOG_FILE argv now +:+ ".log")) in
  p ∉ no →
  can_construct (initial_world argv ROOT_DIR now no)
    (Config.LOG_LEVEL argv) p (VStr Config.LOGGERNAME).
Proof.
  intros p Hp.
  destruct (initial_lookups argv ROOT_DIR now) as (Hn & _ & Hl & Hd & Hf).
  exists (VInt (Config.LOG_LEVEL argv)), (VPath (Config.LOG_PATH ROOT_DIR)),
    (VPath (Path.of_str (Config.LOG_FILE argv now +:+ ".log"))).
  cbn [initial_world shared denied]. auto 10.
Qed.

(** The acquisition fails on a file that cannot be opened. *)
Lemma _config_logger_denied (w : world) (rl d f : pyval) (lv : Z)
    (p : list string) :
  shared w !! "root_level" = Some rl → Level._checkLevel rl = Ok lv →
  shared w !! "log_file_path" = Some d →
  shared w !! "log_file_name" = Some f →
  truediv d f = Ok (VPath p) → p ∈ denied w →
  _config_logger w = (Raise OSError, w).
Proof.
  intros Hrl Hlv Hd Hf Hdiv Hden. unfold _config_logger.
  read_ok Hrl. lift_ok Hlv. read_ok Hd. read_ok Hf. lift_ok Hdiv.
  apply bind_raise. unfold FileHandler.
  rewrite bool_decide_eq_true_2 by exact Hden. reflexivity.
Qed.

Lemma _config_logger_unjoinable (w : world) (rl d f : pyval) (lv : Z)
    (e : exn) :
  shared w !! "root_level" = Some rl → Level._checkLevel rl = Ok lv →
  shared w !! "log_file_path" = Some d →
  shared w !! "log_file_name" = Some f →
  truediv d f = Raise e →
  _config_logger w = (Raise e, w).
Proof.
  intros Hrl Hlv Hd Hf Hdiv. unfold _config_logger.
  read_ok Hrl. lift_ok Hlv. read_ok Hd. read_ok Hf.
  apply bind_raise, lift_raise, Hdiv.
Qed.

(** An acquisition whose construction raises, raises the same. *)
Lemma acquire_raises (c : acquisition) (w w' : world) (e : exn) :
  logger_absent w → _config_logger w = (Raise e, w') →
  acquire c w = (Raise e, w').
Proof.
  intros Ha Hc. rewrite acquire_unfold, (ensure_logger_absent w Ha), Hc.
  reflexivity.
Qed.

(** X6.  At the start of a process the first acquisition call builds the
    logger [LeanPython] at DEBUG when [-d] is on the command line and at
    INFO otherwise, with one console handler and one file handler on
    [ROOT_DIR/logs/<LOG_FILE>.log], provided that file can be opened; when
    it cannot, the call raises [OSError] and leaves the process as it
    was. *)
Theorem X6_first_logger_from_config
    (argv : list string) (ROOT_DIR : list string) (now : string)
    (no : list (list string)) (c : acquisition) :
  let w := initial_world argv ROOT_DIR now no in
  let p := Path.join (Config.LOG_PATH ROOT_DIR)
             (Path.of_str (Config.LOG_FILE argv now +:+ ".log")) in
  let lv := if bool_decide ("-d" ∈ argv) then Level.DEBUG else Level.INFO in
  (p ∉ no →
   acquire c w = (Ok (finish c (VLogger 0)), constructed w lv p (VStr "LeanPython")) ∧
   one_pair (constructed w lv p (VStr "LeanPython")) (VLogger 0) lv p
     (VStr "LeanPython")) ∧
  (p ∈ no → acquire c w = (Raise OSError, w)).
Proof.
  intros w p lv. split.
  - intros Hp.
    pose proof (initial_can_construct argv ROOT_DIR now no Hp) as Hc.
    split.
    + apply (acquire_absent c w _ _ _ (initial_absent argv ROOT_DIR now no) Hc).
    + apply (constructed_one_pair w).
  - intros Hp.
    destruct (initial_lookups argv ROOT_DIR now) as (_ & _ & Hl & Hd & Hf).
    apply acquire_raises; [apply initial_absent |].
    apply (_config_logger_denied w _ _ _ (Config.LOG_LEVEL argv) p Hl eq_refl
             Hd Hf eq_refl Hp).
Qed.

Lemma X6_witness :
  acquire GetLogger (initial_world ["example.py"; "-d"] ["/"; "proj"] "" []) =
  (Ok (ALogger (VLogger 0)),
   constructed (initial_world ["example.py"; "-d"] ["/"; "proj"] "" [])
     Level.DEBUG ["/"; "proj"; "logs"; "LeanPython.log"] (VStr "LeanPython")) ∧
  acquire GetLogger
    (initial_world ["example.py"] ["/"; "proj"] ""
       [["/"; "proj"; "logs"; "LeanPython.log"]]) =
  (Raise OSError,
   initial_world ["example.py"] ["/"; "proj"] ""
     [["/"; "proj"; "logs"; "LeanPython.log"]]).
Proof.
  split.
  - apply (proj1 (proj1 (X6_first_logger_from_config
             ["example.py"; "-d"] ["/"; "proj"] "" [] GetLogger)
             ltac:(apply not_elem_of_nil))).
  - apply (proj2 (X6_first_logger_from_config
             ["example.py"] ["/"; "proj"] ""
             [["/"; "proj"; "logs"; "LeanPython.log"]] GetLogger)).
    vm_compute. left.
Defined.

(** ** Overrides that break or repair the construction *)

Lemma merged_one (st : gmap string pyval) (k : string) (v : pyval) :
  is_Some (st !! k) → merged st [(VStr k, v)] = <[k := v]> st.
Proof.
  intros H. unfold merged. cbn [foldl]. unfold merge_item, key_in_shared.
  cbn [fst snd]. rewrite bool_decide_eq_true_2 by exact H. reflexivity.
Qed.

(** X7.  When [log_file_path] and [log_file_name] are both strings after
    the merge, [_config_logger] cannot join them: [__new__] and every
    acquisition call raise [TypeError], and no logger, handler or file is
    created. *)
Theorem X7_two_strings_do_not_join
    (w : world) (items : list (pyval * pyval)) (a b : string) :
  let st := merged (shared w) items in
  let wm := with_shared (fun _ => st) w in
  logger_absent wm →
  (∃ rl, st !! "root_level" = Some rl ∧ Level.valid rl = true) →
  st !! "log_file_path" = Some (VStr a) →
  st !! "log_file_name" = Some (VStr b) →
  __new__ (CfgDict items) w = (Raise TypeError, wm) ∧
  (∀ c, acquire c wm = (Raise TypeError, wm)) ∧
  loggers wm = loggers w ∧ handlers wm = handlers w ∧ opened wm = opened w.
Proof.
  intros st wm Ha (rl & Hrl & Hv) Hd Hf.
  assert (Hlv : ∃ lv, Level._checkLevel rl = Ok lv).
  { destruct (Level._checkLevel rl) as [lv|e] eqn:E; [eauto |].
    destruct rl; cbn in Hv, E; try discriminate.
    destruct (Level._nameToLevel s); [discriminate |].
    apply bool_decide_eq_true in Hv as [? ?]. discriminate. }
  destruct Hlv as [lv Hlv].
  assert (Hc : _config_logger wm = (Raise TypeError, wm)).
  { apply (_config_logger_unjoinable wm rl (VStr a) (VStr b) lv TypeError);
      auto. }
  split; [| split].
  - rewrite __new___dict. fold st. fold wm.
    rewrite (ensure_logger_absent wm Ha). exact Hc.
  - intros c. apply acquire_raises; assumption.
  - destruct w; auto.
Qed.

Lemma X7_witness :
  __new__ (CfgDict [(VStr "log_file_path", VStr "logs");
                    (VStr "log_file_name", VStr "app.log")]) Sample.w0 =
  (Raise TypeError,
   with_shared
     (fun _ => merged (shared Sample.w0)
                 [(VStr "log_file_path", VStr "logs");
                  (VStr "log_file_name", VStr "app.log")]) Sample.w0).
Proof.
  apply (X7_two_strings_do_not_join Sample.w0
           [(VStr "log_file_path", VStr "logs");
            (VStr "log_file_name", VStr "app.log")] "logs" "app.log").
  - exists VNone. split; vm_compute; reflexivity.
  - exists (VInt 20). split; vm_compute; reflexivity.
  - vm_compute. reflexivity.
  - vm_compute. reflexivity.
Defined.

(** X8.  A failed construction can be repaired: with an invalid level in
    the shared state the acquisition raises and changes nothing, and a later
    [BorgLogger({"root_level": good})] with a valid level builds the logger
    at that level, which the acquisition calls then hand out. *)
Theorem X8_invalid_level_is_repaired
    (w : world) (c : acquisition) (bad good : pyval)
    (lv : Z) (p : list string) (nm d f : pyval) :
  logger_absent w →
  shared w !! "root_level" = Some bad → Level.valid bad = false →
  Level._checkLevel good = Ok lv →
  shared w !! "log_file_path" = Some d →
  shared w !! "log_file_name" = Some f →
  truediv d f = Ok (VPath p) → p ∉ denied w →
  shared w !! "name" = Some nm →
  (∃ e, acquire c w = (Raise e, w)) ∧
  __new__ (CfgDict [(VStr "root_level", good)]) w =
    (Ok tt, constructed (with_shared (insert "root_level" good) w) lv p nm) ∧
  acquire c (constructed (with_shared (insert "root_level" good) w) lv p nm) =
    (Ok (finish c (VLogger (List.length (loggers w)))),
     constructed (with_shared (insert "root_level" good) w) lv p nm).
Proof.
  intros Ha Hbad Hv Hgood Hd Hf Hdiv Hden Hnm.
  split; [| split].
  - destruct (valid_checkLevel bad Hv) as (e & _ & He).
    exists e. apply acquire_raises; [exact Ha |].
    apply (_config_logger_invalid w bad e Hbad He).
  - rewrite __new___dict, merged_one by eauto.
    change (with_shared (fun _ => <["root_level" := good]> (shared w)) w)
      with (with_shared (insert "root_level" good) w).
    assert (Ha' : logger_absent (with_shared (insert "root_level" good) w)).
    { destruct Ha as (v & Hv' & Ht). exists v. split; [| exact Ht].
      cbn [shared with_shared]. rewrite lookup_insert_ne by discriminate.
      exact Hv'. }
    rewrite (ensure_logger_absent _ Ha').
    apply _config_logger_ok.
    exists good, d, f. cbn [shared with_shared denied].
    rewrite lookup_insert_eq, !lookup_insert_ne by discriminate. auto 10.
  - apply (acquire_present c _ (VLogger (List.length (loggers w))));
      [apply (constructed_main_logger (with_shared (insert "root_level" good) w))
      | reflexivity].
Qed.

Lemma X8_witness :
  __new__ (CfgDict [(VStr "root_level", VStr "WARNING")]) Sample.w_bad =
  (Ok tt,
   constructed (with_shared (insert "root_level" (VStr "WARNING")) Sample.w_bad)
     Level.WARNING Sample.log_file (VStr "LeanPython")).
Proof.
  apply (proj1 (proj2 (X8_invalid_level_is_repaired Sample.w_bad GetLogger
           (VStr "LOUD") (VStr "WARNING") Level.WARNING Sample.log_file
           (VStr "LeanPython") (VPath ["/"; "proj"; "logs"])
           (VPath ["LeanPython.log"])
           ltac:(exists VNone; split; vm_compute; reflexivity)
           ltac:(vm_compute; reflexivity) ltac:(vm_compute; reflexivity)
           ltac:(vm_compute; reflexivity) ltac:(vm_compute; reflexivity)
           ltac:(vm_compute; reflexivity) ltac:(vm_compute; reflexivity)
           ltac:(apply not_elem_of_nil) ltac:(vm_compute; reflexivity)))).
Defined.

(** ** What an acquisition leaves untouched *)

(** [_config_logger] succeeds exactly on the configurations that allow the
    construction, and writes the shared state only then. *)
Lemma _config_logger_outcome (w w' : world) (r : outcome unit) :
  _config_logger w = (r, w') →
  match r with
  | Ok _ => ∃ lv p nm, can_construct w lv p nm ∧ w' = constructed w lv p nm
  | Raise _ => shared w' = shared w
  end.
Proof.
  assert (Hsame : ∀ e, _config_logger w = (Raise e, w) →
            _config_logger w = (r, w') →
            match r with
            | Ok _ => ∃ lv p nm, can_construct w lv p nm ∧
                                 w' = constructed w lv p nm
            | Raise _ => shared w' = shared w
            end).
  { intros e -> [= <- <-]. reflexivity. }
  destruct (shared w !! "root_level") as [rl|] eqn:Hrl.
  2:{ apply (Hsame KeyError). unfold _config_logger.
      apply bind_raise, shared_get_none, Hrl. }
  destruct (Level._checkLevel rl) as [lv|e] eqn:Hlv.
  2:{ apply (Hsame e), (_config_logger_invalid w rl e Hrl Hlv). }
  destruct (shared w !! "log_file_path") as [d|] eqn:Hd.
  2:{ apply (Hsame KeyError). unfold _config_logger.
      read_ok Hrl. lift_ok Hlv. apply bind_raise, shared_get_none, Hd. }
  destruct (shared w !! "log_file_name") as [f|] eqn:Hf.
  2:{ apply (Hsame KeyError). unfold _config_logger.
      read_ok Hrl. lift_ok Hlv. read_ok Hd.
      apply bind_raise, shared_get_none, Hf. }
  destruct (truediv d f) as [v|e] eqn:Hdiv.
  2:{ apply (Hsame e), (_config_logger_unjoinable w rl d f lv e); assumption. }
  destruct (truediv_path d f v Hdiv) as [p ->].
  destruct (decide (p ∈ denied w)) as [Hden|Hden].
  { apply (Hsame OSError), (_config_logger_denied w rl d f lv p); assumption. }
  destruct (shared w !! "name") as [nm|] eqn:Hnm.
  - assert (Hc : can_construct w lv p nm).
    { exists rl, d, f. auto 10. }
    rewrite (_config_logger_ok w lv p nm Hc). intros [= <- <-]. eauto.
  - rewrite (_config_logger_handlers w rl d f lv p Hrl Hlv Hd Hf Hdiv Hden).
    erewrite bind_raise by (apply shared_get_none; exact Hnm).
    intros [= <- <-]. reflexivity.
Qed.

(** X9.  Whatever an acquisition call does, the loggers and handlers
    already in the store stay as they were and no log line is written.  When
    it raises, the shared state is unchanged, so an absent logger reference
    stays absent; when it returns, the logger reference is set and is the
    logger it returned. *)
Theorem X9_acquisition_frame
    (c : acquisition) (w w' : world) (r : outcome acquired) :
  acquire c w = (r, w') →
  extends w w' ∧ output w' = output w ∧
  (∀ e, r = Raise e →
        shared w' = shared w ∧ (logger_absent w → logger_absent w')) ∧
  (∀ a, r = Ok a → logger_present w' ∧
                   shared w' !! "main_logger" = Some (underlying a)).
Proof.
  rewrite acquire_unfold.
  destruct (ensure_logger w) as [[[]|e] w1] eqn:He.
  - pose proof (ensure_logger_frame w w1 _ He) as (Hext & Hout & _).
    rewrite ensure_logger_unfold in He.
    destruct (shared w !! "main_logger") as [v|] eqn:Hv; [| discriminate He].
    assert (H1 : ∃ v1, shared w1 !! "main_logger" = Some v1 ∧ truthy v1 = true).
    { destruct (truthy v) eqn:Ht.
      - injection He as <-. eauto.
      - apply _config_logger_outcome in He as (lv & p & nm & _ & ->).
        eexists. split; [apply constructed_main_logger | reflexivity]. }
    destruct H1 as (v1 & Hv1 & Ht1). rewrite Hv1. intros [= <- <-].
    split; [exact Hext |]. split; [exact Hout |]. split.
    + intros e H. discriminate H.
    + intros a [= <-]. rewrite underlying_finish.
      split; [exists v1; auto | exact Hv1].
  - intros [= <- <-].
    pose proof (ensure_logger_frame w w1 _ He) as (Hext & Hout & _).
    split; [exact Hext |]. split; [exact Hout |]. split.
    + intros e' _.
      assert (Hs : shared w1 = shared w).
      { rewrite ensure_logger_unfold in He.
        destruct (shared w !! "main_logger") as [v|].
        - destruct (truthy v); [discriminate He |].
          apply (_config_logger_outcome w w1 _ He).
        - injection He as _ <-. reflexivity. }
      split; [exact Hs |].
      intros (v & Hv & Ht). exists v. rewrite Hs. auto.
    + intros a H. discriminate H.
Qed.

Lemma X9_witness :
  shared (snd (acquire GetLogger Sample.w_bad)) = shared Sample.w_bad ∧
  logger_absent (snd (acquire GetLogger Sample.w_bad)).
Proof.
  destruct (acquire GetLogger Sample.w_bad) as [r w'] eqn:E.
  destruct (X9_acquisition_frame GetLogger Sample.w_bad w' r E)
    as (_ & _ & Hr & _).
  assert (Hraise : r = Raise ValueError).
  { vm_compute in E. injection E as <- _. reflexivity. }
  destruct (Hr ValueError Hraise) as [Hs Ha]. cbn [snd].
  split; [exact Hs |]. apply Ha.
  exists VNone. split; vm_compute; reflexivity.
Defined.

(** ** What a logging call writes *)

Lemma deref_one_pair (w : world) (v : pyval) (lv : Z) (p : list string)
    (nm : pyval) :
  one_pair w v lv p nm →
  ∃ hc hf,
    deref v w = (Ok {| l_name := nm; l_level := lv; l_handlers := [hc; hf] |}, w) ∧
    handlers w !! hc = Some {| h_sink := Console; h_level := lv;
                               h_fmt := console_format;
                               h_datefmt := console_datefmt |} ∧
    handlers w !! hf = Some {| h_sink := File p; h_level := lv;
                               h_fmt := file_format;
                               h_datefmt := file_datefmt |}.
Proof.
  intros (id & hc & hf & -> & Hlg & _ & Hc & Hf). exists hc, hf.
  split; [| auto]. unfold deref. rewrite Hlg. reflexivity.
Qed.

(** Whether a logger at level [lv] takes a record of level [level]. *)
Lemma isEnabledFor_level (lg : Logger) (level : Z) :
  isEnabledFor lg level = (0 <? level)%Z && (l_level lg <=? level)%Z.
Proof.
  unfold isEnabledFor. rewrite !Z.geb_leb.
  destruct (Z.leb_spec level 0), (Z.ltb_spec 0 level); try lia; reflexivity.
Qed.

(** What [Logger.log] does on a logger with its pair of handlers. *)
Lemma Logger_log_result (ROOT_DIR : list string) (active : option exc_info)
    (w : world) (v : pyval) (lv : Z) (p : list string) (nm : pyval)
    (level : Z) (msg : string) (kw : kwargs) :
  one_pair w v lv p nm →
  Logger_log ROOT_DIR active v level msg kw w =
  if (0 <? level)%Z && (lv <=? level)%Z then
    match _log_message ROOT_DIR active msg (kw_extra kw) with
    | Ok m => (Ok tt, with_output (fun o => o ++ both_lines p level m)%list w)
    | Raise e => (Raise e, w)
    end
  else (Ok tt, w).
Proof.
  intros H. destruct (deref_one_pair w v lv p nm H) as (hc & hf & Hd & Hc & Hf).
  unfold Logger_log. rewrite (bind_ok _ _ w w _ Hd), isEnabledFor_level.
  cbn [l_level].
  destruct ((0 <? level)%Z && (lv <=? level)%Z) eqn:Hpass; [| reflexivity].
  apply andb_true_iff in Hpass as [_ Hle]. apply Z.leb_le in Hle.
  unfold CustomLogger__log.
  destruct (_log_message ROOT_DIR active msg (kw_extra kw)) as [m|e].
  - rewrite (bind_ok (lift _) _ w w m eq_refl).
    unfold Logger__log. rewrite (bind_ok _ _ w w _ Hd).
    unfold callHandlers. cbn [l_handlers for_each].
    unfold mbind, M_bind. rewrite Hc. cbn [h_level h_sink].
    rewrite (geb_true level lv Hle).
    cbn [with_output handlers]. rewrite Hf. cbn [h_level h_sink].
    rewrite (geb_true level lv Hle).
    unfold mret, M_ret, with_output, both_lines.
    cbn [shared loggers handlers opened denied output].
    rewrite <- app_assoc. reflexivity.
  - apply bind_raise. reflexivity.
Qed.

(** What [LoggerAdapter.log] does on such a logger. *)
Lemma LoggerAdapter_log_result (ROOT_DIR : list string)
    (active : option exc_info) (ptr : string) (w : world) (a : ContextAdapter)
    (lv : Z) (p : list string) (nm : pyval) (level : Z) (msg : string)
    (kw : kwargs) :
  one_pair w (ad_logger a) lv p nm →
  LoggerAdapter_log ROOT_DIR active ptr a level msg kw w =
  Logger_log ROOT_DIR active (ad_logger a) level
    (fst (process ptr (ad_extra a) msg kw)) kw w.
Proof.
  intros H.
  destruct (deref_one_pair w _ lv p nm H) as (hc & hf & Hd & _ & _).
  unfold LoggerAdapter_log. rewrite (bind_ok _ _ w w _ Hd).
  destruct (isEnabledFor _ level) eqn:Hen.
  - destruct (ad_extra a); reflexivity.
  - unfold Logger_log. rewrite (bind_ok _ _ w w _ Hd), Hen. reflexivity.
Qed.

Lemma Logger_log_plain
    (ROOT_DIR : list string) (active : option exc_info) (w : world)
    (v : pyval) (lv : Z) (p : list string) (nm : pyval)
    (level : Z) (msg : string) :
  one_pair w v lv p nm →
  Logger_log ROOT_DIR active v level msg no_kwargs w =
  (Ok tt,
   if (0 <? level)%Z && (lv <=? level)%Z
   then with_output (fun o => o ++ both_lines p level msg)%list w
   else w).
Proof.
  intros H. rewrite (Logger_log_result ROOT_DIR active w v lv p nm _ _ _ H).
  destruct ((0 <? level)%Z && (lv <=? level)%Z); reflexivity.
Qed.

(** X10.  A plain logging call on the shared logger writes the message to
    the console and to the file when its level is positive and at least the
    configured level, and writes nothing otherwise: never to one sink
    only. *)
Theorem X10_level_filter
    (ROOT_DIR : list string) (active : option exc_info) (w : world)
    (v : pyval) (lv : Z) (p : list string) (nm : pyval)
    (level : Z) (msg : string) :
  one_pair w v lv p nm →
  Logger_log ROOT_DIR active v level msg no_kwargs w =
  (Ok tt,
   if (0 <? level)%Z && (lv <=? level)%Z
   then with_output (fun o => o ++ both_lines p level msg)%list w
   else w).
Proof.
  intros H. rewrite (Logger_log_result ROOT_DIR active w v lv p nm _ _ _ H).
  unfold no_kwargs, _log_message. cbn [kw_extra is_exception_flagged].
  destruct ((0 <? level)%Z && (lv <=? level)%Z); reflexivity.
Qed.

Lemma X10_witness :
  Logger_log Sample.root None (VLogger 0) Level.DEBUG "quiet" no_kwargs
    (constructed Sample.w0 Level.INFO Sample.log_file (VStr "LeanPython")) =
  (Ok tt, constructed Sample.w0 Level.INFO Sample.log_file (VStr "LeanPython")).
Proof.
  apply (X10_level_filter Sample.root None _ (VLogger 0) Level.INFO
           Sample.log_file (VStr "LeanPython") Level.DEBUG "quiet"
           (constructed_one_pair Sample.w0 Level.INFO Sample.log_file
              (VStr "LeanPython"))).
Defined.

(** X11.  On the logger a process builds first, a DEBUG message is written
    exactly when [-d] was on the command line; an INFO message is always
    written. *)
Theorem X11_debug_needs_d
    (argv : list string) (ROOT_DIR : list string) (now : string)
    (no : list (list string)) (active : option exc_info) (msg : string) :
  let w := initial_world argv ROOT_DIR now no in
  let p := Path.join (Config.LOG_PATH ROOT_DIR)
             (Path.of_str (Config.LOG_FILE argv now +:+ ".log")) in
  let w1 := constructed w (Config.LOG_LEVEL argv) p (VStr "LeanPython") in
  p ∉ no →
  get_logger w = (Ok (VLogger 0), w1) ∧
  Logger_log ROOT_DIR active (VLogger 0) Level.DEBUG msg no_kwargs w1 =
    (Ok tt,
     if bool_decide ("-d" ∈ argv)
     then with_output (fun o => o ++ both_lines p Level.DEBUG msg)%list w1
     else w1) ∧
  Logger_log ROOT_DIR active (VLogger 0) Level.INFO msg no_kwargs w1 =
    (Ok tt, with_output (fun o => o ++ both_lines p Level.INFO msg)%list w1).
Proof.
  intros w p w1 Hp.
  pose proof (initial_can_construct argv ROOT_DIR now no Hp) as Hc.
  assert (Hpair : one_pair w1 (VLogger 0) (Config.LOG_LEVEL argv) p
                    (VStr "LeanPython"))
    by exact (constructed_one_pair w (Config.LOG_LEVEL argv) p (VStr "LeanPython")).
  split; [| split].
  - pose proof (acquire_absent GetLogger w _ _ _
                  (initial_absent argv ROOT_DIR now no) Hc) as Ha.
    unfold acquire in Ha. unfold mbind, M_bind in Ha.
    destruct (get_logger w) as [[v|e] w']; [| discriminate Ha].
    injection Ha as -> ->. reflexivity.
  - rewrite (Logger_log_plain ROOT_DIR active w1 _ _ _ _ Level.DEBUG msg Hpair).
    unfold Config.LOG_LEVEL. destruct (bool_decide ("-d" ∈ argv)); reflexivity.
  - rewrite (Logger_log_plain ROOT_DIR active w1 _ _ _ _ Level.INFO msg Hpair).
    unfold Config.LOG_LEVEL. destruct (bool_decide ("-d" ∈ argv)); reflexivity.
Qed.

Lemma X11_witness :
  Logger_log Sample.root None (VLogger 0) Level.DEBUG "details" no_kwargs
    (constructed (initial_world ["example.py"; "-d"] Sample.root "" [])
       Level.DEBUG Sample.log_file (VStr "LeanPython")) =
  (Ok tt,
   with_output (fun o => o ++ both_lines Sample.log_file Level.DEBUG "details")%list
     (constructed (initial_world ["example.py"; "-d"] Sample.root "" [])
        Level.DEBUG Sample.log_file (VStr "LeanPython"))).
Proof.
  apply (proj1 (proj2 (X11_debug_needs_d ["example.py"; "-d"] Sample.root "" []
                         None "details" ltac:(apply not_elem_of_nil)))).
Defined.

(** X12.  A leveled call through an adapter with a string context writes
    ["[context] message"] to both sinks under the same level rule; an adapter
    without context behaves as the logger itself. *)
Theorem X12_adapter_writes_context
    (ROOT_DIR : list string) (active : option exc_info) (ptr : string)
    (w : world) (v : pyval) (lv : Z) (p : list string) (nm : pyval)
    (s : string) (level : Z) (msg : string) :
  one_pair w v lv p nm →
  LoggerAdapter_log ROOT_DIR active ptr {| ad_logger := v; ad_extra := CtxStr s |}
    level msg no_kwargs w =
  (Ok tt,
   if (0 <? level)%Z && (lv <=? level)%Z
   then with_output
          (fun o => o ++ both_lines p level ("[" +:+ s +:+ "] " +:+ msg))%list w
   else w) ∧
  LoggerAdapter_log ROOT_DIR active ptr {| ad_logger := v; ad_extra := CtxNone |}
    level msg no_kwargs w =
  Logger_log ROOT_DIR active v level msg no_kwargs w.
Proof.
  intros H. split.
  - rewrite (LoggerAdapter_log_result ROOT_DIR active ptr w
               {| ad_logger := v; ad_extra := CtxStr s |} lv p nm _ _ _ H).
    apply (Logger_log_plain ROOT_DIR active w v lv p nm level _ H).
  - apply (LoggerAdapter_log_result ROOT_DIR active ptr w
             {| ad_logger := v; ad_extra := CtxNone |} lv p nm _ _ _ H).
Qed.

Lemma X12_witness :
  LoggerAdapter_log Sample.root None Sample.ptr
    {| ad_logger := VLogger 0; ad_extra := CtxStr "worker" |}
    Level.WARNING "This is a warning" no_kwargs
    (constructed Sample.w0 Level.INFO Sample.log_file (VStr "LeanPython")) =
  (Ok tt,
   with_output
     (fun o => o ++ both_lines Sample.log_file Level.WARNING
                      "[worker] This is a warning")%list
     (constructed Sample.w0 Level.INFO Sample.log_file (VStr "LeanPython"))).
Proof.
  apply (proj1 (X12_adapter_writes_context Sample.root None Sample.ptr _
                  (VLogger 0) Level.INFO Sample.log_file (VStr "LeanPython")
                  "worker" Level.WARNING "This is a warning"
                  (constructed_one_pair Sample.w0 Level.INFO Sample.log_file
                     (VStr "LeanPython")))).
Defined.

Lemma _log_message_flagged (ROOT_DIR : list string) (active : option exc_info)
    (msg : string) (extra : option (gmap string pyval)) :
  is_exception_flagged extra = true →
  _log_message ROOT_DIR active msg extra =
  match detailed_exception_now ROOT_DIR active with
  | Ok d => Ok (msg +:+ " [" +:+ d +:+ "]")
  | Raise e => Raise e
  end.
Proof.
  intros H. unfold _log_message. rewrite H.
  destruct (detailed_exception_now ROOT_DIR active); reflexivity.
Qed.

(** X13.  With an exception active and ERROR enabled, [exception] of the
    logger writes the message followed by the exception detail in brackets,
    and [exception] of an adapter with a string context writes the context
    first, then the message, then the detail, once, at level ERROR to both
    sinks; the [exc_info] argument and the other keyword arguments, with an
    [extra] that names no record attribute, do not change the message. *)
Theorem X13_exception_calls_write
    (ROOT_DIR : list string) (e : exc_info) (ptr : string) (w : world)
    (v : pyval) (lv : Z) (p : list string) (nm : pyval)
    (s msg : string) (exc_flag : bool) (kw : kwargs) :
  one_pair w v lv p nm → (lv ≤ Level.ERROR)%Z →
  record_accepts (kw_extra kw) = true →
  has_char "'" (short_name (exc_type e)) = false →
  (Path.is_prefix ROOT_DIR (Path.of_str (tb_filename (exc_tb e))) = true →
   (2 ≤ List.length (Path.of_str (tb_filename (exc_tb e))))%nat) →
  ∃ text,
    detailed_exception ROOT_DIR e = Ok text ∧
    CustomLogger_exception ROOT_DIR (Some e) v msg exc_flag kw w =
      (Ok tt,
       with_output
         (fun o => o ++ both_lines p Level.ERROR
                          (msg +:+ " [" +:+ text +:+ "]"))%list w) ∧
    ContextAdapter_exception ROOT_DIR (Some e) ptr
      {| ad_logger := v; ad_extra := CtxStr s |} msg exc_flag kw w =
      (Ok tt,
       with_output
         (fun o => o ++ both_lines p Level.ERROR
                          (("[" +:+ s +:+ "] " +:+ msg)
                           +:+ " [" +:+ text +:+ "]"))%list w).
Proof.
  intros H Hle _ Hq Hlen.
  destruct (err_file_of_total ROOT_DIR e Hlen) as [file Hf].
  pose proof (detailed_exception_ok ROOT_DIR e file Hq Hf) as Hd.
  eexists. split; [exact Hd |].
  assert (Hpass : ((0 <? Level.ERROR)%Z && (lv <=? Level.ERROR)%Z) = true).
  { apply andb_true_iff. split; [reflexivity | apply Z.leb_le, Hle]. }
  split.
  - unfold CustomLogger_exception.
    rewrite (Logger_log_result ROOT_DIR (Some e) w v lv p nm _ _ _ H), Hpass.
    rewrite (_log_message_flagged ROOT_DIR (Some e) msg _
               (flag_exception_flagged exc_flag kw)).
    cbn [detailed_exception_now]. rewrite Hd. reflexivity.
  - unfold ContextAdapter_exception.
    rewrite (LoggerAdapter_log_result ROOT_DIR (Some e) ptr w
               {| ad_logger := v; ad_extra := CtxStr s |} lv p nm _ _ _ H).
    cbn [ad_logger ad_extra process fst].
    rewrite (Logger_log_result ROOT_DIR (Some e) w v lv p nm _ _ _ H), Hpass.
    rewrite (_log_message_flagged ROOT_DIR (Some e) _ _
               (flag_exception_flagged exc_flag kw)).
    cbn [detailed_exception_now]. rewrite Hd. reflexivity.
Qed.

Lemma X13_witness :
  ContextAdapter_exception Sample.root (Some Sample.zde) Sample.ptr
    {| ad_logger := VLogger 0; ad_extra := CtxStr "Exception Adapter" |}
    "Oops!" false no_kwargs
    (constructed Sample.w0 Level.INFO Sample.log_file (VStr "LeanPython")) =
  (Ok tt,
   with_output
     (fun o => o ++ both_lines Sample.log_file Level.ERROR
        "[Exception Adapter] Oops! [Exception in examples/foo.py:105 - ZeroDivisionError - division by zero - Second argument to a division or modulo operation was zero.]")%list
     (constructed Sample.w0 Level.INFO Sample.log_file (VStr "LeanPython"))).
Proof.
  destruct (X13_exception_calls_write Sample.root Sample.zde Sample.ptr
              (constructed Sample.w0 Level.INFO Sample.log_file (VStr "LeanPython"))
              (VLogger 0) Level.INFO Sample.log_file (VStr "LeanPython")
              "Exception Adapter" "Oops!" false no_kwargs
              (constructed_one_pair Sample.w0 Level.INFO Sample.log_file
                 (VStr "LeanPython"))
              ltac:(vm_compute; discriminate)
              ltac:(reflexivity)
              ltac:(vm_compute; reflexivity)
              ltac:(intros _; vm_compute; lia))
    as (text & Hd & _ & Ha).
  vm_compute in Hd. injection Hd as <-. exact Ha.
Defined.

(** X14.  [exception] called while no exception is active raises
    [AttributeError] and writes nothing when the logger takes ERROR records;
    when the logger's level is above ERROR the call does nothing at all. *)
Theorem X14_exception_without_active_exception
    (ROOT_DIR : list string) (ptr : string) (w : world) (v : pyval) (lv : Z)
    (p : list string) (nm : pyval) (ctx : context) (msg : string)
    (exc_flag : bool) (kw : kwargs) :
  one_pair w v lv p nm →
  CustomLogger_exception ROOT_DIR None v msg exc_flag kw w =
    (if (lv <=? Level.ERROR)%Z then Raise AttributeError else Ok tt, w) ∧
  ContextAdapter_exception ROOT_DIR None ptr
    {| ad_logger := v; ad_extra := ctx |} msg exc_flag kw w =
    (if (lv <=? Level.ERROR)%Z then Raise AttributeError else Ok tt, w).
Proof.
  intros H.
  assert (Hlog : ∀ m, Logger_log ROOT_DIR None v Level.ERROR m
                        (flag_exception exc_flag kw) w =
                      (if (lv <=? Level.ERROR)%Z then Raise AttributeError
                       else Ok tt, w)).
  { intros m.
    rewrite (Logger_log_result ROOT_DIR None w v lv p nm _ _ _ H).
    rewrite (_log_message_flagged ROOT_DIR None m _
               (flag_exception_flagged exc_flag kw)).
    cbn [detailed_exception_now].
    change (0 <? Level.ERROR)%Z with true. cbn [andb].
    destruct (lv <=? Level.ERROR)%Z; reflexivity. }
  split.
  - apply Hlog.
  - unfold ContextAdapter_exception.
    rewrite (LoggerAdapter_log_result ROOT_DIR None ptr w
               {| ad_logger := v; ad_extra := ctx |} lv p nm _ _ _ H).
    apply Hlog.
Qed.

Lemma X14_witness :
  CustomLogger_exception Sample.root None (VLogger 0) "Oops!" true no_kwargs
    (constructed Sample.w0 Level.INFO Sample.log_file (VStr "LeanPython")) =
  (Raise AttributeError,
   constructed Sample.w0 Level.INFO Sample.log_file (VStr "LeanPython")).
Proof.
  apply (proj1 (X14_exception_without_active_exception Sample.root Sample.ptr
                  _ (VLogger 0) Level.INFO Sample.log_file (VStr "LeanPython")
                  CtxNone "Oops!" true no_kwargs
                  (constructed_one_pair Sample.w0 Level.INFO Sample.log_file
                     (VStr "LeanPython")))).
Defined.

(** X15.  For an [extra] mapping that names no record attribute, the
    exception detail is attached to a record of any level whose [extra] has
    the key [is_exception], whatever value the key holds; without the key
    the message is written as it is. *)
Theorem X15_flag_is_the_key
    (ROOT_DIR : list string) (e : exc_info) (w : world) (v : pyval) (lv : Z)
    (p : list string) (nm : pyval) (level : Z) (msg text : string)
    (d : gmap string pyval) (exc_flag : bool) :
  one_pair w v lv p nm → (0 < level)%Z → (lv ≤ level)%Z →
  record_accepts (Some d) = true →
  detailed_exception ROOT_DIR e = Ok text →
  Logger_log ROOT_DIR (Some e) v level msg
    {| kw_extra := Some d; kw_exc_info := exc_flag |} w =
  (Ok tt,
   with_output
     (fun o => o ++ both_lines p level
                      (if bool_decide (is_Some (d !! "is_exception"))
                       then msg +:+ " [" +:+ text +:+ "]" else msg))%list w).
Proof.
  intros H Hpos Hle _ Hd.
  rewrite (Logger_log_result ROOT_DIR (Some e) w v lv p nm _ _ _ H).
  assert (Hpass : ((0 <? level)%Z && (lv <=? level)%Z) = true).
  { apply andb_true_iff. split; [apply Z.ltb_lt | apply Z.leb_le]; assumption. }
  rewrite Hpass. cbn [kw_extra]. unfold _log_message, is_exception_flagged.
  destruct (bool_decide (is_Some (d !! "is_exception"))).
  - cbn [detailed_exception_now]. rewrite Hd. reflexivity.
  - reflexivity.
Qed.

Lemma X15_witness :
  Logger_log Sample.root (Some Sample.zde) (VLogger 0) Level.INFO "note"
    {| kw_extra := Some {[ "is_exception" := VBool false ]};
       kw_exc_info := false |}
    (constructed Sample.w0 Level.INFO Sample.log_file (VStr "LeanPython")) =
  (Ok tt,
   with_output
     (fun o => o ++ both_lines Sample.log_file Level.INFO
        "note [Exception in examples/foo.py:105 - ZeroDivisionError - division by zero - Second argument to a division or modulo operation was zero.]")%list
     (constructed Sample.w0 Level.INFO Sample.log_file (VStr "LeanPython"))).
Proof.
  apply (X15_flag_is_the_key Sample.root Sample.zde _ (VLogger 0) Level.INFO
           Sample.log_file (VStr "LeanPython") Level.INFO "note" _
           {[ "is_exception" := VBool false ]} false
           (constructed_one_pair Sample.w0 Level.INFO Sample.log_file
              (VStr "LeanPython"))
           ltac:(vm_compute; reflexivity) ltac:(vm_compute; discriminate)
           ltac:(vm_compute; reflexivity) ltac:(vm_compute; reflexivity)).
Defined.



(** X17.  The guards of [__initpkg__] and of [project_to_path] compare a
    path object with the strings of [sys.path]: importing [__initpkg__] and
    then [config] on a [sys.path] of strings puts the root in front twice,
    with the [lib] folder between. *)
Theorem X17_root_twice_on_sys_path
    (ROOT_DIR : list string) (sys_path : list pyval) :
  forallb SysPath.is_str sys_path = true →
  SysPath.initpkg_insert ROOT_DIR sys_path =
    VStr (Path.to_str ROOT_DIR) :: sys_path ∧
  SysPath.project_to_path ROOT_DIR (SysPath.initpkg_insert ROOT_DIR sys_path) =
    VStr (Path.to_str ROOT_DIR)
    :: VStr (Path.to_str (SysPath.LIB_DIR ROOT_DIR))
    :: VStr (Path.to_str ROOT_DIR) :: sys_path.
Proof.
  intros H.
  assert (Hi : SysPath.initpkg_insert ROOT_DIR sys_path =
               VStr (Path.to_str ROOT_DIR) :: sys_path).
  { unfold SysPath.initpkg_insert. rewrite (path_in_strings _ _ H). reflexivity. }
  split; [exact Hi |]. rewrite Hi.
  set (root := VStr (Path.to_str ROOT_DIR)).
  set (lib := VStr (Path.to_str (SysPath.LIB_DIR ROOT_DIR))).
  assert (H1 : forallb SysPath.is_str (root :: sys_path) = true) by exact H.
  assert (H2 : forallb SysPath.is_str (lib :: root :: sys_path) = true)
    by exact H.
  unfold SysPath.project_to_path, SysPath.PROJECT_PATHS. cbn [foldl].
  rewrite (path_in_strings (SysPath.LIB_DIR ROOT_DIR) _ H1). cbn [negb].
  fold lib. rewrite (path_in_strings ROOT_DIR _ H2). reflexivity.
Qed.

Lemma X17_witness :
  SysPath.project_to_path ["/"; "proj"]
    (SysPath.initpkg_insert ["/"; "proj"] [VStr "/usr/lib/python3"]) =
  [VStr "/proj"; VStr "/proj/lib"; VStr "/proj"; VStr "/usr/lib/python3"].
Proof.
  apply (proj2 (X17_root_twice_on_sys_path ["/"; "proj"]
                  [VStr "/usr/lib/python3"] eq_refl)).
Defined.
